(** * farmy-fish-fry: the order cache hook and the edit-order form

    A shallow embedding of [src/hooks/useOrders.ts] (the paginated order
    cache with its notification listener) and of
    [src/components/edit-order-modal.tsx] (the price autofill effect, the tier
    and price handlers and the submit validation), with the properties the
    specification states about them.

    React state cells and refs become fields of a record; an [async] function
    is cut at each [await] into the part that runs before it and the part that
    resumes with the awaited value; [setTimeout] becomes an entry in a timer
    queue over a logical clock counted in milliseconds. *)

From Stdlib Require Import List String Ascii ZArith QArith Bool Lia.
From Stdlib Require Import DecimalString.
Import ListNotations.
Local Close Scope Q_scope.
Local Open Scope Z_scope.
Local Open Scope nat_scope.
Local Open Scope string_scope.

(** ** JavaScript numbers

    A [number] is a finite value, read as a rational, or one of the three
    special values.  The only arithmetic the modelled code performs on such a
    value is a comparison with a literal; comparisons with [NaN] are false. *)
Module JSNumber.

Inductive number : Type :=
| Fin (q : Q)
| NaN
| PosInf
| NegInf.

Definition ofZ (z : Z) : number := Fin (inject_Z z).

(** [a < b] *)
Definition lt (a b : number) : bool :=
  match a, b with
  | NaN, _ | _, NaN => false
  | Fin x, Fin y => negb (Qle_bool y x)
  | Fin _, PosInf => true
  | Fin _, NegInf => false
  | PosInf, _ => false
  | NegInf, NegInf => false
  | NegInf, _ => true
  end.

(** [a <= b] *)
Definition le (a b : number) : bool :=
  match a, b with
  | NaN, _ | _, NaN => false
  | Fin x, Fin y => Qle_bool x y
  | Fin _, PosInf => true
  | Fin _, NegInf => false
  | PosInf, PosInf => true
  | PosInf, _ => false
  | NegInf, _ => true
  end.

(** [a > b] *)
Definition gt (a b : number) : bool := lt b a.

End JSNumber.

Import JSNumber.

(** ** The order cache: [useOrders] *)
Module OrderCache.

(** The [creator] and [claimer] objects of an [Order]. *)
Record UserRef : Type := mkUserRef {
  ref_id : string;
  discordName : string;
  inGameName : option string
}.

(** [claimer?: {...} | null]: the key may be missing, hold [null], or hold an
    object. *)
Inductive ClaimerField : Type :=
| ClaimerUndefined
| ClaimerNull
| ClaimerObject (u : UserRef).

Record Order : Type := mkOrder {
  id : string;
  itemName : string;
  tier : number;
  pricePerUnit : number;
  amount : number;
  orderType : string;
  status : string;
  createdAt : string;
  fulfilledAt : option string;
  creator : UserRef;
  claimer : ClaimerField
}.

(** [Partial<Order>]: every key is optional; [None] is a key the object does
    not have, [Some v] a key it has with value [v]. *)
Record PartialOrder : Type := mkPartial {
  p_id : option string;
  p_itemName : option string;
  p_tier : option number;
  p_pricePerUnit : option number;
  p_amount : option number;
  p_orderType : option string;
  p_status : option string;
  p_createdAt : option string;
  p_fulfilledAt : option (option string);
  p_creator : option UserRef;
  p_claimer : option ClaimerField
}.

(** The object literal [{}]. *)
Definition emptyPartial : PartialOrder :=
  mkPartial None None None None None None None None None None None.

Definition has_key {A : Type} (o : option A) : nat :=
  match o with Some _ => 1 | None => 0 end.

(** [Object.keys(updates).length] *)
Definition keys_length (u : PartialOrder) : nat :=
  has_key (p_id u) + has_key (p_itemName u) + has_key (p_tier u)
  + has_key (p_pricePerUnit u) + has_key (p_amount u) + has_key (p_orderType u)
  + has_key (p_status u) + has_key (p_createdAt u) + has_key (p_fulfilledAt u)
  + has_key (p_creator u) + has_key (p_claimer u).

(** One key of a spread [{ ...order, ...updates }]: the later object wins
    where it has the key. *)
Definition spread_key {A : Type} (old : A) (upd : option A) : A :=
  match upd with Some v => v | None => old end.

(** [{ ...order, ...updates }] *)
Definition spread (order : Order) (updates : PartialOrder) : Order :=
  {| id := spread_key (id order) (p_id updates);
     itemName := spread_key (itemName order) (p_itemName updates);
     tier := spread_key (tier order) (p_tier updates);
     pricePerUnit := spread_key (pricePerUnit order) (p_pricePerUnit updates);
     amount := spread_key (amount order) (p_amount updates);
     orderType := spread_key (orderType order) (p_orderType updates);
     status := spread_key (status order) (p_status updates);
     createdAt := spread_key (createdAt order) (p_createdAt updates);
     fulfilledAt := spread_key (fulfilledAt order) (p_fulfilledAt updates);
     creator := spread_key (creator order) (p_creator updates);
     claimer := spread_key (claimer order) (p_claimer updates) |}.

Record User : Type := mkUser {
  user_id : string;
  user_discordId : string;
  user_discordName : string;
  user_inGameName : option string
}.

Record OrdersResponse : Type := mkOrdersResponse {
  resp_orders : list Order;
  resp_totalCount : Z;
  resp_hasMore : bool;
  resp_page : Z;
  resp_limit : Z;
  resp_currentUser : option User
}.

(** The state cells ([useState]) and refs ([useRef]) of the hook. *)
Record HookState : Type := mkHook {
  orders : list Order;
  loading : bool;
  currentUser : option User;
  hasMore : bool;
  totalCount : Z;
  page : Z;
  isLoadingRef : bool;
  hasInitializedRef : bool
}.

(** The hook as it is after its first render. *)
Definition initialHook : HookState :=
  {| orders := []; loading := true; currentUser := None; hasMore := false;
     totalCount := 0; page := 1; isLoadingRef := false;
     hasInitializedRef := false |}.

Definition setOrders (f : list Order -> list Order) (h : HookState) : HookState :=
  mkHook (f (orders h)) (loading h) (currentUser h) (hasMore h) (totalCount h)
         (page h) (isLoadingRef h) (hasInitializedRef h).

Definition setLoading (b : bool) (h : HookState) : HookState :=
  mkHook (orders h) b (currentUser h) (hasMore h) (totalCount h)
         (page h) (isLoadingRef h) (hasInitializedRef h).

Definition setCurrentUser (u : User) (h : HookState) : HookState :=
  mkHook (orders h) (loading h) (Some u) (hasMore h) (totalCount h)
         (page h) (isLoadingRef h) (hasInitializedRef h).

Definition setHasMore (b : bool) (h : HookState) : HookState :=
  mkHook (orders h) (loading h) (currentUser h) b (totalCount h)
         (page h) (isLoadingRef h) (hasInitializedRef h).

Definition setTotalCount (n : Z) (h : HookState) : HookState :=
  mkHook (orders h) (loading h) (currentUser h) (hasMore h) n
         (page h) (isLoadingRef h) (hasInitializedRef h).

Definition setPage (n : Z) (h : HookState) : HookState :=
  mkHook (orders h) (loading h) (currentUser h) (hasMore h) (totalCount h)
         n (isLoadingRef h) (hasInitializedRef h).

Definition setIsLoadingRef (b : bool) (h : HookState) : HookState :=
  mkHook (orders h) (loading h) (currentUser h) (hasMore h) (totalCount h)
         (page h) b (hasInitializedRef h).

Definition setHasInitializedRef (b : bool) (h : HookState) : HookState :=
  mkHook (orders h) (loading h) (currentUser h) (hasMore h) (totalCount h)
         (page h) (isLoadingRef h) b.

(** The callback of [updateOrder]:
    [order => order.id === orderId ? { ...order, ...updates } : order] *)
Definition merge_at (orderId : string) (updates : PartialOrder)
    (order : Order) : Order :=
  if String.eqb (id order) orderId then spread order updates else order.

(** [updateOrder]: [setOrders(prev => prev.map(...))] *)
Definition updateOrder (orderId : string) (updates : PartialOrder)
    (h : HookState) : HookState :=
  setOrders (map (merge_at orderId updates)) h.

(** [removeOrder]: [prev.filter(order => order.id !== orderId)] *)
Definition removeOrder (orderId : string) (h : HookState) : HookState :=
  setOrders (filter (fun order => negb (String.eqb (id order) orderId))) h.

(** *** The world around the hook

    What the hook reads or drives besides its own cells: the session of the
    context provider, the requests issued with [fetch], the suspended
    continuations of [fetchOrders], the console, and the timer queue. *)

Definition Error := string.

(** What an awaited [fetch] (followed by [response.json()]) delivers:
    [fetch] throws, or a response arrives with its [ok] flag and, when
    [json()] is called on it, a body or a parse error ([None]). *)
Inductive FetchResult (A : Type) : Type :=
| FetchThrows (e : Error)
| Response (ok : bool) (json : option A).
Arguments FetchThrows {A} e.
Arguments Response {A} ok json.

(** A call of [fetchOrders] suspended at an [await]. *)
Inductive Pending : Type :=
| AwaitOrders (pageNum : Z) (reset : bool)
| AwaitUser.

(** [GET /api/orders?page=<pageNum>&limit=50&includeUserData=true] and
    [GET /api/user]. *)
Inductive Request : Type :=
| GetOrders (pageNum : Z)
| GetUser.

(** The settlement of the promise an [async] call returns. *)
Inductive Promise : Type :=
| StillPending
| Fulfilled
| RejectedWith (e : Error).

Record World : Type := mkWorld {
  hook : HookState;
  sessionUserId : option string;
  sessionStatus : string;
  inflight : list Pending;
  requests : list Request;
  console : list string;
  timers : list (Z * string);
  now : Z
}.

Definition onHook (f : HookState -> HookState) (w : World) : World :=
  mkWorld (f (hook w)) (sessionUserId w) (sessionStatus w) (inflight w)
          (requests w) (console w) (timers w) (now w).

Definition setSession (uid : option string) (st : string) (w : World) : World :=
  mkWorld (hook w) uid st (inflight w) (requests w) (console w) (timers w)
          (now w).

Definition setInflight (l : list Pending) (w : World) : World :=
  mkWorld (hook w) (sessionUserId w) (sessionStatus w) l (requests w)
          (console w) (timers w) (now w).

(** [fetch(url)]: the request leaves, the caller suspends on its result. *)
Definition fetch (r : Request) (p : Pending) (w : World) : World :=
  mkWorld (hook w) (sessionUserId w) (sessionStatus w) (inflight w ++ [p])
          (requests w ++ [r]) (console w) (timers w) (now w).

(** [console.error(msg, error)] *)
Definition console_error (msg : string) (w : World) : World :=
  mkWorld (hook w) (sessionUserId w) (sessionStatus w) (inflight w)
          (requests w) (console w ++ [msg]) (timers w) (now w).

(** [setTimeout(() => removeOrder(orderId), delay)] *)
Definition setTimeout (orderId : string) (delay : Z) (w : World) : World :=
  mkWorld (hook w) (sessionUserId w) (sessionStatus w) (inflight w)
          (requests w) (console w) (timers w ++ [((now w + delay)%Z, orderId)])
          (now w).

(** [session?.user?.id] as a condition: present and not the empty string. *)
Definition truthy (s : option string) : bool :=
  match s with
  | Some v => negb (String.eqb v "")
  | None => false
  end.

Definition initialWorld (uid : option string) (st : string) : World :=
  mkWorld initialHook uid st [] [] [] [] 0.

(** *** [fetchOrders] *)

(** From the call to the first [await]. *)
Definition fetchOrders (pageNum : Z) (reset : bool) (w : World) : World :=
  if negb (truthy (sessionUserId w)) || isLoadingRef (hook w) then w
  else
    let w1 := onHook (setIsLoadingRef true) w in
    let w2 := onHook (setLoading (pageNum =? 1)%Z) w1 in
    fetch (GetOrders pageNum) (AwaitOrders pageNum reset) w2.

(** How a stretch of the [try] block ends. *)
Inductive Body : Type :=
| Done (w : World)
| Thrown (w : World) (e : Error)
| Suspended (w : World).

(** The [try] block from [await fetch(`/api/orders?...`)] on. *)
Definition afterOrdersResponse (pageNum : Z) (reset : bool)
    (r : FetchResult OrdersResponse) (w : World) : Body :=
  match r with
  | FetchThrows e => Thrown w e
  | Response false _ => Done w
  | Response true None => Thrown w "Unexpected token in JSON"
  | Response true (Some data) =>
      let w1 :=
        if reset || (pageNum =? 1)%Z
        then onHook (setOrders (fun _ => resp_orders data)) w
        else onHook (setOrders (fun prev => (prev ++ resp_orders data)%list)) w in
      let w2 := onHook (setHasMore (resp_hasMore data)) w1 in
      let w3 := onHook (setTotalCount (resp_totalCount data)) w2 in
      let w4 := onHook (setPage pageNum) w3 in
      match resp_currentUser data with
      | Some u => Done (onHook (setCurrentUser u) w4)
      | None => Suspended (fetch GetUser AwaitUser w4)
      end
  end.

(** The inner [try]/[catch] from [await fetch(`/api/user`)] on. *)
Definition afterUserResponse (r : FetchResult User) (w : World) : Body :=
  match r with
  | FetchThrows _ => Done (console_error "Error fetching user data:" w)
  | Response false _ => Done w
  | Response true None => Done (console_error "Error fetching user data:" w)
  | Response true (Some userData) => Done (onHook (setCurrentUser userData) w)
  end.

(** The [finally] block. *)
Definition finallyBlock (w : World) : World :=
  onHook (setIsLoadingRef false) (onHook (setLoading false) w).

(** The outer [catch] and [finally] around a stretch of the [try] block. *)
Definition settle (b : Body) : World * Promise :=
  match b with
  | Done w => (finallyBlock w, Fulfilled)
  | Thrown w _ => (finallyBlock (console_error "Error fetching orders:" w), Fulfilled)
  | Suspended w => (w, StillPending)
  end.

(** The oldest suspended call resumes with the result of its request; a
    result nobody waits for is dropped. *)
Definition resumeOrders (r : FetchResult OrdersResponse) (w : World)
    : World * Promise :=
  match inflight w with
  | AwaitOrders pageNum reset :: rest =>
      settle (afterOrdersResponse pageNum reset r (setInflight rest w))
  | _ => (w, StillPending)
  end.

Definition resumeUser (r : FetchResult User) (w : World) : World * Promise :=
  match inflight w with
  | AwaitUser :: rest => settle (afterUserResponse r (setInflight rest w))
  | _ => (w, StillPending)
  end.

(** The initial-load effect; it runs after the first render and after each
    change of the session. *)
Definition initialLoadEffect (w : World) : World :=
  if String.eqb (sessionStatus w) "loading" || hasInitializedRef (hook w) then w
  else if truthy (sessionUserId w)
       then fetchOrders 1 true (onHook (setHasInitializedRef true) w)
       else w.

Definition loadMore (w : World) : World :=
  if hasMore (hook w) && negb (loading (hook w)) && negb (isLoadingRef (hook w))
  then fetchOrders (page (hook w) + 1)%Z false w
  else w.

Definition refetch (w : World) : World :=
  if negb (isLoadingRef (hook w))
  then fetchOrders 1 true (onHook (setHasInitializedRef false) w)
  else w.

(** A callback created by a render under the session user id [uid], called
    later: it reads that id, whatever the session has become since. *)
Definition under_session (uid : option string) (f : World -> World)
    (w : World) : World :=
  setSession (sessionUserId w) (sessionStatus w)
             (f (setSession uid (sessionStatus w) w)).

(** [refreshSession], from the point where [await update()] settles:
    [updated] tells whether it resolved, and [captured] is the session user
    id of the render in which [refreshSession] was called, the one its
    [refetch] (and the [fetchOrders] inside) was created under.  The new
    session itself arrives through the context (see [EvSession]). *)
Definition refreshSession (captured : option string) (updated : bool)
    (w : World) : World :=
  if updated then under_session captured refetch w
  else console_error "Error refreshing session:" w.

(** *** The notification listener *)

Record ClaimerPayload : Type := mkClaimerPayload {
  cp_id : string;
  cp_name : option string;
  cp_inGameName : option string
}.

(** [event.detail]; of [orderDetails] only [orderType] is read. *)
Record Detail : Type := mkDetail {
  orderId : string;
  notificationType : string;
  orderDetails_orderType : string;
  detail_claimer : option ClaimerPayload
}.

(** [claimer.name || "Unknown"] *)
Definition nameOrUnknown (name : option string) : string :=
  match name with
  | Some n => if String.eqb n "" then "Unknown" else n
  | None => "Unknown"
  end.

(** [claimer ? { id, discordName, inGameName } : null] *)
Definition claimerOf (c : option ClaimerPayload) : ClaimerField :=
  match c with
  | Some c =>
      ClaimerObject
        {| ref_id := cp_id c;
           discordName := nameOrUnknown (cp_name c);
           inGameName := cp_inGameName c |}
  | None => ClaimerNull
  end.

(** [{ status: s }] and [{ status: s, claimer: c }] *)
Definition statusOnly (s : string) : PartialOrder :=
  mkPartial None None None None None None (Some s) None None None None.

Definition statusAndClaimer (s : string) (c : ClaimerField) : PartialOrder :=
  mkPartial None None None None None None (Some s) None None None (Some c).

(** The tail of the handler, after the [switch]. *)
Definition applyStatusUpdate (oid : string) (statusUpdate : PartialOrder)
    (w : World) : World :=
  if (0 <? keys_length statusUpdate)%nat
  then onHook (updateOrder oid statusUpdate) w
  else w.

Definition handleOrderStatusUpdate (d : Detail) (w : World) : World :=
  let oid := orderId d in
  let kind := notificationType d in
  if String.eqb kind "order_claimed" then
    if String.eqb (orderDetails_orderType d) "SELL"
    then applyStatusUpdate oid
           (statusAndClaimer "READY_TO_TRADE" (claimerOf (detail_claimer d))) w
    else applyStatusUpdate oid
           (statusAndClaimer "IN_PROGRESS" (claimerOf (detail_claimer d))) w
  else if String.eqb kind "order_ready" then
    applyStatusUpdate oid (statusOnly "READY_TO_TRADE") w
  else if String.eqb kind "order_completed" then
    setTimeout oid 1000 (onHook (updateOrder oid (statusOnly "FULFILLED")) w)
  else if String.eqb kind "order_cancelled" then
    applyStatusUpdate oid (statusAndClaimer "OPEN" ClaimerNull) w
  else applyStatusUpdate oid emptyPartial w.

(** *** Time

    The clock moves forward by [dt] milliseconds; every timer that has come
    due runs its callback, in the order the timers were set. *)
Definition due (t : Z) (tm : Z * string) : bool := (fst tm <=? t)%Z.

Definition fireTimers (t : Z) (tms : list (Z * string)) (h : HookState)
    : HookState :=
  fold_left (fun h tm => if due t tm then removeOrder (snd tm) h else h) tms h.

Definition advance (dt : Z) (w : World) : World :=
  let t := (now w + Z.max 0 dt)%Z in
  mkWorld (fireTimers t (timers w) (hook w)) (sessionUserId w)
          (sessionStatus w) (inflight w) (requests w) (console w)
          (filter (fun tm => negb (due t tm)) (timers w)) t.

(** *** Runs of the hook *)
Inductive Event : Type :=
| EvSession (uid : option string) (st : string)
| EvFetchOrders (pageNum : Z) (reset : bool)
| EvLoadMore
| EvRefetch
| EvRefreshSession (captured : option string) (updated : bool)
| EvOrdersResponse (r : FetchResult OrdersResponse)
| EvUserResponse (r : FetchResult User)
| EvUpdateOrder (oid : string) (updates : PartialOrder)
| EvRemoveOrder (oid : string)
| EvNotification (d : Detail)
| EvAdvance (dt : Z).

(** [session?.user?.id] as an effect dependency: the same value or not. *)
Definition same_id (a b : option string) : bool :=
  match a, b with
  | Some x, Some y => String.eqb x y
  | None, None => true
  | _, _ => false
  end.

(** A new session value arrives.  The initial-load effect depends on
    [session?.user?.id], [status] and [fetchOrders] (itself recreated when
    the id changes): it runs again when the id or the status has changed,
    and not otherwise. *)
Definition sessionChanges (uid : option string) (st : string) (w : World)
    : World :=
  if same_id (sessionUserId w) uid && String.eqb (sessionStatus w) st
  then setSession uid st w
  else initialLoadEffect (setSession uid st w).

Definition step (w : World) (e : Event) : World :=
  match e with
  | EvSession uid st => sessionChanges uid st w
  | EvFetchOrders pageNum reset => fetchOrders pageNum reset w
  | EvLoadMore => loadMore w
  | EvRefetch => refetch w
  | EvRefreshSession captured updated => refreshSession captured updated w
  | EvOrdersResponse r => fst (resumeOrders r w)
  | EvUserResponse r => fst (resumeUser r w)
  | EvUpdateOrder oid updates => onHook (updateOrder oid updates) w
  | EvRemoveOrder oid => onHook (removeOrder oid) w
  | EvNotification d => handleOrderStatusUpdate d w
  | EvAdvance dt => advance dt w
  end.

Definition run (w : World) (evs : list Event) : World := fold_left step evs w.

(** The hook mounted under a session: first render, then the effects. *)
Definition mount (uid : option string) (st : string) : World :=
  initialLoadEffect (initialWorld uid st).

Definition ids (l : list Order) : list string := map id l.

(** *** Runs in which ids stay unique

    The responses and patches under which no id can come to occur twice: a
    fetched page lists each id once, a page that is appended shares no id
    with the list it is appended to, and a patch does not rename the entry
    it is merged into. *)
Fixpoint nodupb (l : list string) : bool :=
  match l with
  | [] => true
  | x :: rest => negb (existsb (String.eqb x) rest) && nodupb rest
  end.

Definition disjointb (l1 l2 : list string) : bool :=
  forallb (fun x => negb (existsb (String.eqb x) l2)) l1.

Definition keeps_id (oid : string) (updates : PartialOrder) : bool :=
  match p_id updates with
  | None => true
  | Some i => String.eqb i oid
  end.

Definition event_ok (w : World) (e : Event) : bool :=
  match e with
  | EvOrdersResponse (Response true (Some data)) =>
      match inflight w with
      | AwaitOrders pageNum reset :: _ =>
          nodupb (ids (resp_orders data))
          && (reset || (pageNum =? 1)%Z
              || disjointb (ids (orders (hook w))) (ids (resp_orders data)))
      | _ => true
      end
  | EvUpdateOrder oid updates => keeps_id oid updates
  | _ => true
  end.

Fixpoint run_ok (w : World) (evs : list Event) : bool :=
  match evs with
  | [] => true
  | e :: rest => event_ok w e && run_ok (step w e) rest
  end.

(** A fetch that fails: [fetch] throws, the response is not [ok], or its
    body does not parse. *)
Definition failing {A : Type} (r : FetchResult A) : bool :=
  match r with
  | FetchThrows _ => true
  | Response false _ => true
  | Response true None => true
  | Response true (Some _) => false
  end.

(** An order with another status, and with another status and claimer; all
    other fields as they are. *)
Definition with_status (s : string) (o : Order) : Order :=
  mkOrder (id o) (itemName o) (tier o) (pricePerUnit o) (amount o)
          (orderType o) s (createdAt o) (fulfilledAt o) (creator o) (claimer o).

Definition with_status_claimer (s : string) (c : ClaimerField) (o : Order)
    : Order :=
  mkOrder (id o) (itemName o) (tier o) (pricePerUnit o) (amount o)
          (orderType o) s (createdAt o) (fulfilledAt o) (creator o) c.

(** The hook replaced, the rest of the world kept. *)
Definition with_orders (l : list Order) (w : World) : World :=
  onHook (setOrders (fun _ => l)) w.

(** At most one call of [fetchOrders] is suspended, and [isLoadingRef] is
    set exactly while one is. *)
Definition one_in_flight (w : World) : Prop :=
  (inflight w = [] /\ isLoadingRef (hook w) = false)
  \/ (exists p, inflight w = [p] /\ isLoadingRef (hook w) = true).

(** Data for concrete runs. *)
Definition sampleUserRef : UserRef := mkUserRef "u1" "alice" None.

Definition sampleUser : User := mkUser "u1" "d1" "alice" None.

Definition sampleOrder (i : string) : Order :=
  mkOrder i "wood" (ofZ 3) (ofZ 5) (ofZ 10) "SELL" "OPEN" "2025-01-01" None
          sampleUserRef ClaimerUndefined.

Definition stoneOrder : Order :=
  mkOrder "c" "stone" (ofZ 2) (Fin (5 # 2)) (ofZ 4) "BUY" "OPEN" "2025-01-02"
          None sampleUserRef ClaimerUndefined.

Definition samplePage (os : list Order) (more : bool) (pg : Z)
    : OrdersResponse :=
  mkOrdersResponse os 2 more pg 50 (Some sampleUser).

(** A signed-in session: first page, then [loadMore], and the second page
    repeats an order of the first. *)
Definition overlapping_pages : list Event :=
  [ EvOrdersResponse (Response true (Some (samplePage [sampleOrder "a"] true 1)));
    EvLoadMore;
    EvOrdersResponse (Response true (Some (samplePage [sampleOrder "a"] false 2))) ].

(** A signed-in session: two pages with different orders, a patch and a
    removal. *)
Definition distinct_pages : list Event :=
  [ EvOrdersResponse
      (Response true (Some (samplePage [sampleOrder "a"; sampleOrder "b"] true 1)));
    EvUpdateOrder "a" (mkPartial None None None None None None (Some "IN_PROGRESS")
                                 None None None None);
    EvLoadMore;
    EvOrdersResponse (Response true (Some (samplePage [sampleOrder "c"] false 2)));
    EvRemoveOrder "b" ].


(** A cache holding order ["a"], claimed by a user, under a signed-in
    session. *)
Definition claimedWorld : World :=
  with_orders
    [with_status_claimer "IN_PROGRESS"
       (ClaimerObject (mkUserRef "u2" "bob" None)) (sampleOrder "a");
     sampleOrder "b"]
    (initialWorld (Some "u1") "authenticated").

(** The four notification kinds the listener has a case for. *)
Definition recognized (kind : string) : bool :=
  String.eqb kind "order_claimed" || String.eqb kind "order_ready"
  || String.eqb kind "order_completed" || String.eqb kind "order_cancelled".

(** *** Kinds of runs *)

(** No event of the run lets time pass. *)
Definition no_advance (evs : list Event) : bool :=
  forallb (fun e => match e with EvAdvance _ => false | _ => true end) evs.

(** No event of the run brings a session with a user id: neither a change
    of the session, nor the session of the render in which a
    [refreshSession] that settles in the run was called. *)
Definition signed_out (evs : list Event) : bool :=
  forallb (fun e => match e with
                    | EvSession uid _ => negb (truthy uid)
                    | EvRefreshSession captured _ => negb (truthy captured)
                    | _ => true
                    end) evs.

(** No event of the run is a call made by the component that uses the hook:
    the session changes, requests settle, the list is patched, notifications
    arrive and time passes. *)
Definition automatic (evs : list Event) : bool :=
  forallb (fun e => match e with
                    | EvFetchOrders _ _ | EvLoadMore | EvRefetch
                    | EvRefreshSession _ _ => false
                    | _ => true
                    end) evs.

(** A timer of [tms] for order [i] is due at time [t]. *)
Definition expired (t : Z) (tms : list (Z * string)) (i : string) : bool :=
  existsb (fun tm => due t tm && String.eqb i (snd tm)) tms.

(** The hook as it stays while nobody is signed in. *)
Definition dormant (w : World) : Prop :=
  truthy (sessionUserId w) = false
  /\ requests w = [] /\ inflight w = []
  /\ orders (hook w) = [] /\ loading (hook w) = true
  /\ isLoadingRef (hook w) = false.

(** Where the initial load stands: not started; first page requested; user
    requested; settled. *)
Definition initial_load_phase (w : World) : Prop :=
  (hasInitializedRef (hook w) = false /\ isLoadingRef (hook w) = false
   /\ requests w = [] /\ inflight w = [])
  \/ (hasInitializedRef (hook w) = true
      /\ ((requests w = [GetOrders 1] /\ inflight w = [AwaitOrders 1 true])
          \/ (requests w = [GetOrders 1; GetUser] /\ inflight w = [AwaitUser])
          \/ (inflight w = [] /\ isLoadingRef (hook w) = false
              /\ (requests w = [GetOrders 1]
                  \/ requests w = [GetOrders 1; GetUser])))).

(** Once a request has been made, [loading] is only set while a call is in
    flight. *)
Definition loading_tracks_flight (w : World) : Prop :=
  requests w = [] \/ isLoadingRef (hook w) = true \/ loading (hook w) = false.

(** Every timer still set is due in the future, a second away at most. *)
Definition timers_ahead (w : World) : Prop :=
  forall tm, In tm (timers w) -> (now w < fst tm <= now w + 1000)%Z.

End OrderCache.

(** ** The edit form: [EditOrderModal] *)
Module EditOrderModal.

(** The [formData] state cell. *)
Record FormData : Type := mkFormData {
  tier : number;
  pricePerUnit : number;
  amount : number;
  orderType : string
}.

(** The state cells and the ref of the component. *)
Record ModalState : Type := mkModal {
  formData : FormData;
  lastPriceUpdateRef : string;
  userEditedPrice : bool;
  formInitialized : bool;
  tierChanged : bool
}.

(** The component after its first render. *)
Definition initialModal : ModalState :=
  {| formData := mkFormData (ofZ 1) (ofZ 0) (ofZ 1) "BUY";
     lastPriceUpdateRef := "";
     userEditedPrice := false;
     formInitialized := false;
     tierChanged := false |}.

(** "Reset form when order changes" *)
Definition resetFormEffect (order : option OrderCache.Order) (st : ModalState)
    : ModalState :=
  match order with
  | Some o =>
      {| formData :=
           mkFormData (OrderCache.tier o) (OrderCache.pricePerUnit o)
                      (OrderCache.amount o) (OrderCache.orderType o);
         lastPriceUpdateRef := "";
         userEditedPrice := false;
         formInitialized := true;
         tierChanged := false |}
  | None => st
  end.

(** "Reset state when modal closes" *)
Definition closeEffect (isOpen : bool) (st : ModalState) : ModalState :=
  if negb isOpen
  then {| formData := formData st;
          lastPriceUpdateRef := "";
          userEditedPrice := false;
          formInitialized := false;
          tierChanged := false |}
  else st.

(** What [handleSubmit] does after [e.preventDefault()]. *)
Inductive Submit : Type :=
| Alert (message : string)
| OnConfirm (editedOrder : FormData).

Definition handleSubmit (st : ModalState) : Submit :=
  let fd := formData st in
  if lt (tier fd) (ofZ 1) || gt (tier fd) (ofZ 10)
  then Alert "Tier must be between 1 and 10"
  else if le (pricePerUnit fd) (ofZ 0)
  then Alert "Price must be greater than 0"
  else if le (amount fd) (ofZ 0)
  then Alert "Amount must be greater than 0"
  else OnConfirm fd.

Definition handleTierChange (value : number) (st : ModalState) : ModalState :=
  {| formData :=
       mkFormData value (pricePerUnit (formData st)) (amount (formData st))
                  (orderType (formData st));
     lastPriceUpdateRef := "";
     userEditedPrice := false;
     formInitialized := formInitialized st;
     tierChanged := true |}.

(** [n || 0]: zero and [NaN] are the falsy numbers. *)
Definition orZero (n : number) : number :=
  match n with
  | Fin q => if Qeq_bool q 0 then ofZ 0 else n
  | NaN => ofZ 0
  | _ => n
  end.

Section Builtins.

(** The built-ins the component calls: the conversion of a number inside a
    template literal, and [parseFloat]. *)
Variable numberToString : number -> string.
Variable parseFloat : string -> number.

Definition handlePriceChange (value : string) (st : ModalState) : ModalState :=
  {| formData :=
       mkFormData (tier (formData st)) (orZero (parseFloat value))
                  (amount (formData st)) (orderType (formData st));
     lastPriceUpdateRef := lastPriceUpdateRef st;
     userEditedPrice := true;
     formInitialized := formInitialized st;
     tierChanged := tierChanged st |}.

(** [`${order.itemName}-${formData.tier}-${currentPrice}`]; a [null] price
    prints as [null]. *)
Definition priceKey (o : OrderCache.Order) (fd : FormData)
    (currentPrice : option number) : string :=
  OrderCache.itemName o ++ "-" ++ numberToString (tier fd) ++ "-"
  ++ match currentPrice with
     | Some p => numberToString p
     | None => "null"
     end.

(** "Auto-populate price when tier changes".  The effect is a closure of
    the render that created it: [order], [currentPrice] (what [useItemPrice]
    returned for the order's item and the form's tier), [formInitialized],
    [formData.tier], [userEditedPrice] and [tierChanged] are the values of
    that render, here the draft [rendered].  Only the ref
    [lastPriceUpdateRef.current] is read as it is when the effect runs, and
    the write [setFormData(prev => ...)] applies to the draft as it is then,
    here [st]: what the effects declared before it have made of the
    rendered draft in the same commit. *)
Definition autofillEffectOf (order : option OrderCache.Order)
    (currentPrice : option number) (rendered st : ModalState) : ModalState :=
  match order with
  | None => st
  | Some o =>
      if negb (formInitialized rendered) then st
      else
        let newPriceKey := priceKey o (formData rendered) currentPrice in
        if String.eqb (lastPriceUpdateRef st) newPriceKey then st
        else
          match currentPrice with
          | Some price =>
              if negb (userEditedPrice rendered) && tierChanged rendered
              then {| formData :=
                        mkFormData (tier (formData st)) price
                                   (amount (formData st))
                                   (orderType (formData st));
                      lastPriceUpdateRef := newPriceKey;
                      userEditedPrice := userEditedPrice st;
                      formInitialized := formInitialized st;
                      tierChanged := tierChanged st |}
              else st
          | None => st
          end
  end.

(** The effect run by the render of the draft it runs on: so it is after a
    handler has changed the state or the price of the table has changed,
    when no effect declared before it runs in the commit (the order and
    [isOpen] are as they were). *)
Definition autofillEffect (order : option OrderCache.Order)
    (currentPrice : option number) (st : ModalState) : ModalState :=
  autofillEffectOf order currentPrice st st.

(** The order changes to [o] while the dialog is open.  In that commit the
    reset effect runs first and the autofill effect after it, created by
    the render of the draft before, [prev], with the price [stalePrice] the
    table has for the new item at the tier of [prev].  The component then
    renders the draft they left and the autofill effect runs once more,
    with the price [currentPrice] for the tier now in the form. *)
Definition loadCommit (o : OrderCache.Order)
    (stalePrice currentPrice : option number) (prev : ModalState)
    : ModalState :=
  let loaded := resetFormEffect (Some o) prev in
  autofillEffect (Some o) currentPrice
    (autofillEffectOf (Some o) stalePrice prev loaded).

End Builtins.

(** A rendering of numbers for concrete runs: an integer prints in decimal,
    as JavaScript prints it; a fraction prints as numerator over denominator,
    which JavaScript does not do.  Only used to evaluate examples on
    integers. *)
Definition showNumber (n : number) : string :=
  match n with
  | Fin q =>
      let r := Qred q in
      if (Zpos (Qden r) =? 1)%Z
      then NilZero.string_of_int (Z.to_int (Qnum r))
      else NilZero.string_of_int (Z.to_int (Qnum r)) ++ "/"
           ++ NilZero.string_of_int (Z.to_int (Zpos (Qden r)))
  | NaN => "NaN"
  | PosInf => "Infinity"
  | NegInf => "-Infinity"
  end.

(** A draft with the given form fields, for concrete runs. *)
Definition draft (t p a : number) (ty : string) : ModalState :=
  mkModal (mkFormData t p a ty) "" false true false.

(** The literal [0.001]. *)
Definition milli : number := Fin (1 # 1000).

(** The dialog opened on an order, closed, opened again on the same order
    (the reset effect depends on [order] alone and does not run again), and
    the tier then changed to 5. *)
Definition reopened_draft : ModalState :=
  handleTierChange (ofZ 5)
    (closeEffect true
       (closeEffect false
          (resetFormEffect (Some (OrderCache.sampleOrder "a")) initialModal))).

(** A draft whose price the user has typed, after an earlier autofill. *)
Definition edited_draft : ModalState :=
  mkModal (mkFormData (ofZ 5) (Fin (999 # 100)) (ofZ 2) "BUY") "wood-5-12" true
          true true.

(** A freshly loaded draft of order [o], but with price [p] and recorded
    key [k]. *)
Definition loaded_with (o : OrderCache.Order) (p : number) (k : string)
    : ModalState :=
  mkModal (mkFormData (OrderCache.tier o) p (OrderCache.amount o)
                      (OrderCache.orderType o))
          k false true false.

(** The dialog opened on an order, closed, and opened again on the same
    order. *)
Definition reopened_form : ModalState :=
  closeEffect true
    (closeEffect false
       (resetFormEffect (Some (OrderCache.sampleOrder "a")) initialModal)).

(** The dialog opened on an order and the tier changed to 5. *)
Definition armed_draft : ModalState :=
  handleTierChange (ofZ 5)
    (resetFormEffect (Some (OrderCache.sampleOrder "a")) initialModal).

(** *** The other inputs of the form *)

(** [n || 1] *)
Definition orOne (n : number) : number :=
  match n with
  | Fin q => if Qeq_bool q 0 then ofZ 1 else n
  | NaN => ofZ 1
  | _ => n
  end.

(** The numbers that count as false in [n || d]: zero and [NaN]. *)
Definition falsy (n : number) : bool :=
  match n with
  | Fin q => Qeq_bool q 0
  | NaN => true
  | _ => false
  end.

(** The order type select: [setFormData({ ...formData, orderType: value })] *)
Definition handleOrderTypeChange (value : string) (st : ModalState)
    : ModalState :=
  {| formData :=
       mkFormData (tier (formData st)) (pricePerUnit (formData st))
                  (amount (formData st)) value;
     lastPriceUpdateRef := lastPriceUpdateRef st;
     userEditedPrice := userEditedPrice st;
     formInitialized := formInitialized st;
     tierChanged := tierChanged st |}.

Section Interaction.

Variable numberToString : number -> string.
Variable parseFloat : string -> number.
Variable parseInt : string -> number.

(** The amount input:
    [setFormData({ ...formData, amount: parseInt(e.target.value) || 1 })] *)
Definition handleAmountChange (value : string) (st : ModalState) : ModalState :=
  {| formData :=
       mkFormData (tier (formData st)) (pricePerUnit (formData st))
                  (orOne (parseInt value)) (orderType (formData st));
     lastPriceUpdateRef := lastPriceUpdateRef st;
     userEditedPrice := userEditedPrice st;
     formInitialized := formInitialized st;
     tierChanged := tierChanged st |}.

(** What happens to an open form whose order and [isOpen] stay as they
    are: the user picks a tier, types a price or an amount, picks an order
    type, or the autofill effect runs.  Each event is followed by a render,
    so the effect runs from the render of the draft it finds, with the
    order and the price the component was rendered with. *)
Inductive ModalEvent : Type :=
| MTier (value : number)
| MPrice (value : string)
| MAmount (value : string)
| MOrderType (value : string)
| MAutofill (order : option OrderCache.Order) (currentPrice : option number).

Definition mstep (st : ModalState) (e : ModalEvent) : ModalState :=
  match e with
  | MTier v => handleTierChange v st
  | MPrice v => handlePriceChange parseFloat v st
  | MAmount v => handleAmountChange v st
  | MOrderType v => handleOrderTypeChange v st
  | MAutofill order currentPrice =>
      autofillEffect numberToString order currentPrice st
  end.

Definition mrun (st : ModalState) (evs : list ModalEvent) : ModalState :=
  fold_left mstep evs st.

End Interaction.

Definition is_autofill (e : ModalEvent) : bool :=
  match e with MAutofill _ _ => true | _ => false end.

Definition is_tier (e : ModalEvent) : bool :=
  match e with MTier _ => true | _ => false end.

(** The run without its autofill events. *)
Definition without_autofill (evs : list ModalEvent) : list ModalEvent :=
  filter (fun e => negb (is_autofill e)) evs.

(** No event of the run picks a tier. *)
Definition no_tier (evs : list ModalEvent) : bool :=
  forallb (fun e => negb (is_tier e)) evs.

(** A reading of typed text for concrete runs: the empty field does not
    parse, ["0"] is zero, ["-5"] is minus five, anything else is 7. *)
Definition readNumber (value : string) : number :=
  if String.eqb value "" then NaN
  else if String.eqb value "0" then ofZ 0
  else if String.eqb value "-5" then ofZ (-5)
  else ofZ 7.

End EditOrderModal.

(** ** The sign-in page: [HomePage]

    The page has two state cells.  Its effect sets a 100 ms timer whose
    callback, [checkExistingSession], calls [getSession]; the effect runs
    after the first render and again whenever [isRedirecting] changes, and
    its cleanup clears the timer that is set.  The callback reads
    [isRedirecting] from the render that created it, so a timer and a
    [getSession] call under way each carry that value. *)
Module HomePage.

Record HomeState : Type := mkHome {
  isRedirecting : bool;
  isSigningIn : bool;
  timer : option bool;
  sessionChecks : list bool;
  routerPushes : list string;
  signIns : list (string * string)
}.

(** What an awaited [getSession()] gives: it throws, or it resolves to a
    session or to [null]. *)
Inductive SessionResult : Type :=
| SessionThrows
| SessionIs (present : bool).

(** The effect, run by a render in which [isRedirecting] is [b]: cleanup of
    the previous run, then [setTimeout(checkExistingSession, 100)]. *)
Definition runEffect (b : bool) (st : HomeState) : HomeState :=
  mkHome (isRedirecting st) (isSigningIn st) (Some b) (sessionChecks st)
         (routerPushes st) (signIns st).

(** First render, then the effect. *)
Definition mountHome : HomeState :=
  runEffect false (mkHome false false None [] [] []).

(** [setIsRedirecting(true)]: a change of the cell renders again and runs
    the effect again; setting the value it has does neither. *)
Definition setIsRedirecting (st : HomeState) : HomeState :=
  if isRedirecting st then st
  else runEffect true
         (mkHome true (isSigningIn st) (timer st) (sessionChecks st)
                 (routerPushes st) (signIns st)).

(** [router.push(url)] *)
Definition routerPush (url : string) (st : HomeState) : HomeState :=
  mkHome (isRedirecting st) (isSigningIn st) (timer st) (sessionChecks st)
         (routerPushes st ++ [url])%list (signIns st).

(** The timer fires: [checkExistingSession] starts and suspends at
    [await getSession()]. *)
Definition timerFires (st : HomeState) : HomeState :=
  match timer st with
  | Some b =>
      mkHome (isRedirecting st) (isSigningIn st) None
             (sessionChecks st ++ [b])%list (routerPushes st) (signIns st)
  | None => st
  end.

(** [checkExistingSession] from [await getSession()] on; the [catch]
    ignores a thrown error. *)
Definition sessionSettles (r : SessionResult) (st : HomeState) : HomeState :=
  match sessionChecks st with
  | b :: rest =>
      let st1 := mkHome (isRedirecting st) (isSigningIn st) (timer st) rest
                        (routerPushes st) (signIns st) in
      match r with
      | SessionIs true =>
          if negb b then routerPush "/orders" (setIsRedirecting st1) else st1
      | _ => st1
      end
  | [] => st
  end.

(** [handleSignIn] up to [await signIn("discord", { callbackUrl: "/orders" })] *)
Definition handleSignIn (st : HomeState) : HomeState :=
  mkHome (isRedirecting st) true (timer st) (sessionChecks st)
         (routerPushes st) (signIns st ++ [("discord", "/orders")])%list.

(** A click on the button: the button is rendered only while
    [isRedirecting] is false, and is [disabled] while [isSigningIn]. *)
Definition click (st : HomeState) : HomeState :=
  if isRedirecting st || isSigningIn st then st else handleSignIn st.

(** [handleSignIn] from the [await] on: the oldest call settles; the
    [catch] clears [isSigningIn]. *)
Definition signInSettles (ok : bool) (st : HomeState) : HomeState :=
  match signIns st with
  | _ :: rest =>
      mkHome (isRedirecting st) (if ok then isSigningIn st else false)
             (timer st) (sessionChecks st) (routerPushes st) rest
  | [] => st
  end.

Inductive HomeEvent : Type :=
| HTimer
| HSession (r : SessionResult)
| HClick
| HSignIn (ok : bool).

Definition hstep (st : HomeState) (e : HomeEvent) : HomeState :=
  match e with
  | HTimer => timerFires st
  | HSession r => sessionSettles r st
  | HClick => click st
  | HSignIn ok => signInSettles ok st
  end.

Definition hrun (evs : list HomeEvent) : HomeState :=
  fold_left hstep evs mountHome.

(** The checks that have not seen a redirect: the timer and the
    [getSession] calls created by a render with [isRedirecting] false. *)
Definition fresh (b : bool) : nat := if b then 0 else 1.

Definition fresh_checks (st : HomeState) : nat :=
  match timer st with Some b => fresh b | None => 0 end
  + list_sum (map fresh (sessionChecks st)).

(** How far the one check of the first render has come. *)
Definition redirect_budget (st : HomeState) : Prop :=
  (isRedirecting st = false /\ routerPushes st = [] /\ fresh_checks st <= 1)
  \/ (isRedirecting st = true /\ routerPushes st = ["/orders"]
      /\ fresh_checks st = 0).

(** Some event of the run is a [getSession] that found a session. *)
Definition session_found (evs : list HomeEvent) : bool :=
  existsb (fun e => match e with HSession (SessionIs true) => true | _ => false end)
          evs.

End HomePage.

(** * Properties of the order cache *)
Module OrderCacheProps.
Import OrderCache.

(** ** Merging a patch *)

Lemma spread_key_twice {A : Type} (x : A) (u : option A) :
  spread_key (spread_key x u) u = spread_key x u.
Proof. destruct u; reflexivity. Qed.

Lemma spread_twice (o : Order) (u : PartialOrder) :
  spread (spread o u) u = spread o u.
Proof.
  unfold spread; cbn [id itemName tier pricePerUnit amount orderType status
                      createdAt fulfilledAt creator claimer].
  now rewrite !spread_key_twice.
Qed.

Lemma spread_keeps_id (oid : string) (o : Order) (u : PartialOrder) :
  keeps_id oid u = true -> id o = oid -> id (spread o u) = id o.
Proof.
  unfold keeps_id; cbn [spread id]; intros Hk Ho.
  destruct (p_id u) as [i|]; cbn [spread_key]; [|reflexivity].
  apply String.eqb_eq in Hk; congruence.
Qed.

Lemma orders_updateOrder oid u h :
  orders (updateOrder oid u h) = map (merge_at oid u) (orders h).
Proof. reflexivity. Qed.

Lemma merge_at_twice oid u o :
  merge_at oid u (merge_at oid u o) = merge_at oid u o.
Proof.
  unfold merge_at.
  destruct (String.eqb (id o) oid) eqn:E; [|now rewrite E].
  destruct (String.eqb (id (spread o u)) oid); [apply spread_twice|reflexivity].
Qed.

Lemma merge_at_other oid u o : id o <> oid -> merge_at oid u o = o.
Proof.
  intros H; unfold merge_at.
  now apply String.eqb_neq in H; rewrite H.
Qed.

Lemma merge_at_id oid u o :
  keeps_id oid u = true -> id (merge_at oid u o) = id o.
Proof.
  intros Hk; unfold merge_at.
  destruct (String.eqb (id o) oid) eqn:E; [|reflexivity].
  apply String.eqb_eq in E. now apply (spread_keeps_id oid).
Qed.

Lemma ids_updateOrder oid u h :
  keeps_id oid u = true ->
  ids (orders (updateOrder oid u h)) = ids (orders h).
Proof.
  intros Hk. rewrite orders_updateOrder. unfold ids.
  rewrite map_map. apply map_ext. intros o. now apply merge_at_id.
Qed.

Lemma ids_removeOrder oid h :
  ids (orders (removeOrder oid h))
  = filter (fun i => negb (String.eqb i oid)) (ids (orders h)).
Proof.
  unfold removeOrder, ids; cbn [setOrders orders].
  induction (orders h) as [|o l IH]; [reflexivity|].
  cbn [filter map]. destruct (negb (String.eqb (id o) oid)); cbn [map];
    now rewrite IH.
Qed.

(** Claim C4.  For every hook state, id and patch, [updateOrder] applied twice
    gives the state it gives applied once; when no entry carries the id the
    state is unchanged; and every entry with another id stays, at its
    position, as it was. *)
Theorem updateOrder_idempotent (h : HookState) (oid : string)
    (P : PartialOrder) :
  updateOrder oid P (updateOrder oid P h) = updateOrder oid P h
  /\ ((forall o, In o (orders h) -> id o <> oid) -> updateOrder oid P h = h)
  /\ (forall n o, nth_error (orders h) n = Some o -> id o <> oid ->
        nth_error (orders (updateOrder oid P h)) n = Some o).
Proof.
  split; [|split].
  - unfold updateOrder, setOrders; cbn [orders loading currentUser hasMore
      totalCount page isLoadingRef hasInitializedRef].
    f_equal. rewrite map_map. apply map_ext. intros o.
    apply (merge_at_twice oid P o).
  - intros Hno. destruct h as [os ld cu hm tc pg il hi].
    unfold updateOrder, setOrders; cbn [orders loading currentUser hasMore
      totalCount page isLoadingRef hasInitializedRef] in *.
    f_equal.
    induction os as [|o l IH]; [reflexivity|].
    cbn [map]. f_equal.
    + apply (merge_at_other oid P o). apply Hno. now left.
    + apply IH. intros o' Hin. apply Hno. now right.
  - intros n o Hn Hid. rewrite orders_updateOrder.
    rewrite nth_error_map, Hn. cbn [option_map].
    f_equal. now apply merge_at_other.
Qed.

Lemma updateOrder_idempotent_witness :
  let h := hook claimedWorld in
  (forall o, In o (orders h) -> id o <> "z")
  /\ updateOrder "z" (statusOnly "FULFILLED") h = h
  /\ nth_error (orders (updateOrder "a" (statusOnly "FULFILLED") h)) 1
     = Some (sampleOrder "b").
Proof.
  intros h.
  assert (Hno : forall o, In o (orders h) -> id o <> "z").
  { intros o [<-|[<-|[]]]; discriminate. }
  destruct (updateOrder_idempotent h "z" (statusOnly "FULFILLED"))
    as [_ [Hsame _]].
  destruct (updateOrder_idempotent h "a" (statusOnly "FULFILLED"))
    as [_ [_ Hother]].
  split; [exact Hno|]. split; [exact (Hsame Hno)|].
  apply Hother; [reflexivity|discriminate].
Defined.

(** ** Unique ids *)

Lemma existsb_eqb_In (x : string) (l : list string) :
  existsb (String.eqb x) l = true <-> In x l.
Proof.
  rewrite existsb_exists. split.
  - intros [y [Hy E]]. apply String.eqb_eq in E. now subst.
  - intros H. exists x. split; [assumption|apply String.eqb_refl].
Qed.

Lemma nodupb_NoDup (l : list string) : nodupb l = true -> NoDup l.
Proof.
  induction l as [|x l IH]; cbn [nodupb]; intros H; constructor;
    apply andb_prop in H; destruct H as [Hx Hl].
  - intros Hin. apply existsb_eqb_In in Hin. now rewrite Hin in Hx.
  - now apply IH.
Qed.

Lemma disjointb_spec (l1 l2 : list string) :
  disjointb l1 l2 = true -> forall a, In a l1 -> ~ In a l2.
Proof.
  unfold disjointb. rewrite forallb_forall. intros H a Ha Hin.
  specialize (H a Ha). apply existsb_eqb_In in Hin. now rewrite Hin in H.
Qed.

Ltac split_ifs :=
  repeat match goal with
         | |- context [if ?c then _ else _] => destruct c
         end.

Lemma orders_fetchOrders p r w :
  orders (hook (fetchOrders p r w)) = orders (hook w).
Proof. unfold fetchOrders. now split_ifs. Qed.

Lemma orders_initialLoadEffect w :
  orders (hook (initialLoadEffect w)) = orders (hook w).
Proof.
  unfold initialLoadEffect. split_ifs; try reflexivity.
  now rewrite orders_fetchOrders.
Qed.

Lemma orders_loadMore w : orders (hook (loadMore w)) = orders (hook w).
Proof. unfold loadMore. split_ifs; [apply orders_fetchOrders|reflexivity]. Qed.

Lemma orders_refetch w : orders (hook (refetch w)) = orders (hook w).
Proof.
  unfold refetch. split_ifs; [|reflexivity]. now rewrite orders_fetchOrders.
Qed.

Lemma orders_sessionChanges uid st w :
  orders (hook (sessionChanges uid st w)) = orders (hook w).
Proof.
  unfold sessionChanges. split_ifs; [reflexivity|].
  now rewrite orders_initialLoadEffect.
Qed.

(** What the [refetch] of a [refreshSession] does, by the flag and by the
    session it was created under. *)
Lemma under_session_refetch uid w :
  under_session uid refetch w
  = if isLoadingRef (hook w) then w
    else if truthy uid
         then fetch (GetOrders 1) (AwaitOrders 1 true)
                (onHook (setLoading true)
                   (onHook (setIsLoadingRef true)
                      (onHook (setHasInitializedRef false) w)))
         else onHook (setHasInitializedRef false) w.
Proof.
  destruct w as [h u st inf rq co tms t].
  unfold under_session, refetch, fetchOrders.
  cbn [setSession hook sessionUserId sessionStatus inflight requests console
       timers now onHook setHasInitializedRef isLoadingRef].
  destruct (isLoadingRef h); cbn [negb]; [reflexivity|].
  destruct (truthy uid); reflexivity.
Qed.

Lemma orders_refreshSession uid updated w :
  orders (hook (refreshSession uid updated w)) = orders (hook w).
Proof.
  unfold refreshSession. destruct updated; [|reflexivity].
  rewrite under_session_refetch. now split_ifs.
Qed.

Lemma orders_resumeUser r w :
  orders (hook (fst (resumeUser r w))) = orders (hook w).
Proof.
  unfold resumeUser. destruct (inflight w) as [|[p rs|] rest]; try reflexivity.
  destruct r as [e|[|] [u|]]; reflexivity.
Qed.

Lemma orders_resumeOrders_failing r w :
  failing r = true -> orders (hook (fst (resumeOrders r w))) = orders (hook w).
Proof.
  intros F. unfold resumeOrders.
  destruct (inflight w) as [|[p rs|] rest]; try reflexivity.
  destruct r as [e|[|] [d|]]; try discriminate; reflexivity.
Qed.

(** What a page that arrives does to the list. *)
Lemma orders_resumeOrders_page data p rs rest w :
  inflight w = AwaitOrders p rs :: rest ->
  orders (hook (fst (resumeOrders (Response true (Some data)) w)))
  = if rs || (p =? 1)%Z then resp_orders data
    else (orders (hook w) ++ resp_orders data)%list.
Proof.
  intros E. unfold resumeOrders. rewrite E. cbn [afterOrdersResponse].
  destruct (rs || (p =? 1)%Z); destruct (resp_currentUser data); reflexivity.
Qed.

Lemma ids_applyStatusUpdate oid u w :
  p_id u = None ->
  ids (orders (hook (applyStatusUpdate oid u w))) = ids (orders (hook w)).
Proof.
  intros Hu. unfold applyStatusUpdate. split_ifs; [|reflexivity].
  cbn [onHook hook]. apply ids_updateOrder. unfold keeps_id. now rewrite Hu.
Qed.

Lemma ids_handleOrderStatusUpdate d w :
  ids (orders (hook (handleOrderStatusUpdate d w))) = ids (orders (hook w)).
Proof.
  unfold handleOrderStatusUpdate. split_ifs;
    try (now apply ids_applyStatusUpdate).
  cbn [setTimeout onHook hook]. now apply ids_updateOrder.
Qed.

Lemma NoDup_removeOrder oid h :
  NoDup (ids (orders h)) -> NoDup (ids (orders (removeOrder oid h))).
Proof. intros H. rewrite ids_removeOrder. now apply NoDup_filter. Qed.

Lemma NoDup_fireTimers t tms h :
  NoDup (ids (orders h)) -> NoDup (ids (orders (fireTimers t tms h))).
Proof.
  unfold fireTimers. revert h.
  induction tms as [|tm tms IH]; intros h H; cbn [fold_left]; [assumption|].
  apply IH. destruct (due t tm); [now apply NoDup_removeOrder|assumption].
Qed.

Lemma step_keeps_unique w e :
  event_ok w e = true ->
  NoDup (ids (orders (hook w))) ->
  NoDup (ids (orders (hook (step w e)))).
Proof.
  intros Hok H. destruct e; cbn [step].
  - now rewrite orders_sessionChanges.
  - now rewrite orders_fetchOrders.
  - now rewrite orders_loadMore.
  - now rewrite orders_refetch.
  - now rewrite orders_refreshSession.
  - destruct (failing r) eqn:F; [now rewrite orders_resumeOrders_failing|].
    destruct r as [e|[|] [data|]]; try discriminate.
    destruct (inflight w) as [|[p rs|] rest] eqn:E;
      try (unfold resumeOrders; now rewrite E).
    rewrite (orders_resumeOrders_page data p rs rest w E).
    cbn [event_ok] in Hok. rewrite E in Hok.
    apply andb_prop in Hok. destruct Hok as [Hnd Hdis].
    apply nodupb_NoDup in Hnd.
    destruct (rs || (p =? 1)%Z); [assumption|].
    cbn [orb] in Hdis. unfold ids. rewrite map_app.
    apply NoDup_app; try assumption. now apply disjointb_spec.
  - now rewrite orders_resumeUser.
  - cbn [onHook hook]. now rewrite ids_updateOrder.
  - cbn [onHook hook]. now apply NoDup_removeOrder.
  - now rewrite ids_handleOrderStatusUpdate.
  - cbn [advance hook]. now apply NoDup_fireTimers.
Qed.

Lemma run_keeps_unique evs : forall w,
  run_ok w evs = true ->
  NoDup (ids (orders (hook w))) ->
  NoDup (ids (orders (hook (run w evs)))).
Proof.
  induction evs as [|e evs IH]; intros w Hok H; [assumption|].
  cbn [run_ok] in Hok. apply andb_prop in Hok. destruct Hok as [He Hrest].
  unfold run; cbn [fold_left]. apply IH; [assumption|].
  now apply step_keeps_unique.
Qed.

(** Claim C1, as the code has it.  From the mounted hook, over every run in
    which each fetched page lists an id once, each appended page shares no
    id with the cached list, and no patch renames its entry, the list holds
    at most one entry per id. *)
Theorem unique_ids_preserved (uid : option string) (st : string)
    (evs : list Event) :
  run_ok (mount uid st) evs = true ->
  NoDup (ids (orders (hook (run (mount uid st) evs)))).
Proof.
  intros Hok. apply run_keeps_unique; [assumption|].
  unfold mount. rewrite orders_initialLoadEffect. constructor.
Qed.

Lemma unique_ids_preserved_witness :
  run_ok (mount (Some "u1") "authenticated") distinct_pages = true
  /\ NoDup (ids (orders (hook (run (mount (Some "u1") "authenticated")
                                   distinct_pages)))).
Proof.
  split; [reflexivity|].
  apply (unique_ids_preserved (Some "u1") "authenticated" distinct_pages).
  reflexivity.
Defined.

(** Claim C1 as stated fails: a second page that repeats an order of the
    first is appended as it is, and the id then occurs twice. *)
Lemma duplicate_after_append :
  ids (orders (hook (run (mount (Some "u1") "authenticated") overlapping_pages)))
  = ["a"; "a"]
  /\ ~ NoDup (ids (orders (hook (run (mount (Some "u1") "authenticated")
                                     overlapping_pages)))).
Proof.
  split; [reflexivity|].
  intros H. inversion H as [|x l Hnotin Hl]; subst.
  apply Hnotin. now left.
Qed.

(** ** One load at a time *)

Lemma one_in_flight_ext w w' :
  inflight w' = inflight w ->
  isLoadingRef (hook w') = isLoadingRef (hook w) ->
  one_in_flight w -> one_in_flight w'.
Proof. unfold one_in_flight. intros -> ->. tauto. Qed.

Lemma idle_no_inflight w :
  one_in_flight w -> isLoadingRef (hook w) = false -> inflight w = [].
Proof. intros [[E _]|[p [_ E]]] H; [assumption|congruence]. Qed.

Lemma busy_inflight w :
  one_in_flight w -> inflight w <> [] -> isLoadingRef (hook w) = true.
Proof. intros [[E _]|[p [_ E]]] H; [contradiction|assumption]. Qed.

Lemma fetchOrders_one_in_flight p r w :
  one_in_flight w -> one_in_flight (fetchOrders p r w).
Proof.
  intros I. unfold fetchOrders.
  destruct (negb (truthy (sessionUserId w)) || isLoadingRef (hook w)) eqn:G;
    [assumption|].
  apply orb_false_elim in G. destruct G as [_ G].
  right. exists (AwaitOrders p r). cbn. split; [|reflexivity].
  now rewrite (idle_no_inflight w I G).
Qed.

Lemma initialLoadEffect_one_in_flight w :
  one_in_flight w -> one_in_flight (initialLoadEffect w).
Proof.
  intros I. unfold initialLoadEffect. split_ifs; try assumption.
  apply fetchOrders_one_in_flight. revert I. now apply one_in_flight_ext.
Qed.

Lemma settle_orders_one_in_flight p rs r w :
  isLoadingRef (hook w) = true ->
  one_in_flight (fst (settle (afterOrdersResponse p rs r (setInflight [] w)))).
Proof.
  intros B.
  destruct r as [e|[|] [data|]]; cbn [afterOrdersResponse];
    try (left; split; reflexivity).
  destruct (resp_currentUser data), (rs || (p =? 1)%Z);
    try (left; split; reflexivity);
    right; exists AwaitUser; (split; [reflexivity|exact B]).
Qed.

Lemma resumeOrders_one_in_flight r w :
  one_in_flight w -> one_in_flight (fst (resumeOrders r w)).
Proof.
  intros I. unfold resumeOrders.
  destruct I as [[E B]|[q [E B]]]; rewrite E; [left; now split|].
  destruct q as [p rs|]; [|right; exists AwaitUser; now split].
  now apply settle_orders_one_in_flight.
Qed.

Lemma resumeUser_one_in_flight r w :
  one_in_flight w -> one_in_flight (fst (resumeUser r w)).
Proof.
  intros I. unfold resumeUser.
  destruct I as [[E B]|[q [E B]]]; rewrite E; [left; now split|].
  destruct q as [p rs|]; [right; exists (AwaitOrders p rs); now split|].
  destruct r as [e|[|] [u|]]; left; split; reflexivity.
Qed.

Lemma handleOrderStatusUpdate_flight d w :
  inflight (handleOrderStatusUpdate d w) = inflight w
  /\ isLoadingRef (hook (handleOrderStatusUpdate d w)) = isLoadingRef (hook w).
Proof.
  unfold handleOrderStatusUpdate, applyStatusUpdate. split_ifs; now split.
Qed.

Lemma refetch_one_in_flight w :
  one_in_flight w -> one_in_flight (refetch w).
Proof.
  intros I. unfold refetch. split_ifs; [|assumption].
  apply fetchOrders_one_in_flight. revert I. now apply one_in_flight_ext.
Qed.

Lemma isLoadingRef_fireTimers t tms h :
  isLoadingRef (fireTimers t tms h) = isLoadingRef h.
Proof.
  unfold fireTimers. revert h.
  induction tms as [|tm tms IH]; intros h; cbn [fold_left]; [reflexivity|].
  rewrite IH. now destruct (due t tm).
Qed.

Lemma step_one_in_flight w e :
  one_in_flight w -> one_in_flight (step w e).
Proof.
  intros I. destruct e; cbn [step].
  - unfold sessionChanges.
    destruct (same_id (sessionUserId w) uid && String.eqb (sessionStatus w) st);
      [revert I; now apply one_in_flight_ext|].
    apply initialLoadEffect_one_in_flight. revert I.
    now apply one_in_flight_ext.
  - now apply fetchOrders_one_in_flight.
  - unfold loadMore. split_ifs; [now apply fetchOrders_one_in_flight|assumption].
  - now apply refetch_one_in_flight.
  - unfold refreshSession. destruct updated;
      [|revert I; now apply one_in_flight_ext].
    rewrite under_session_refetch.
    destruct (isLoadingRef (hook w)) eqn:B; [assumption|].
    destruct (truthy captured); [|revert I; now apply one_in_flight_ext].
    right. exists (AwaitOrders 1 true). cbn. split; [|reflexivity].
    now rewrite (idle_no_inflight w I B).
  - now apply resumeOrders_one_in_flight.
  - now apply resumeUser_one_in_flight.
  - revert I. now apply one_in_flight_ext.
  - revert I. now apply one_in_flight_ext.
  - revert I. apply one_in_flight_ext; apply handleOrderStatusUpdate_flight.
  - revert I. apply one_in_flight_ext; [reflexivity|].
    apply isLoadingRef_fireTimers.
Qed.

Lemma run_one_in_flight evs : forall w,
  one_in_flight w -> one_in_flight (run w evs).
Proof.
  induction evs as [|e evs IH]; intros w I; [assumption|].
  unfold run; cbn [fold_left]. apply IH. now apply step_one_in_flight.
Qed.

Lemma mount_one_in_flight uid st : one_in_flight (mount uid st).
Proof.
  unfold mount. apply initialLoadEffect_one_in_flight. left. now split.
Qed.

Lemma reachable_one_in_flight uid st evs :
  one_in_flight (run (mount uid st) evs).
Proof. apply run_one_in_flight, mount_one_in_flight. Qed.

Lemma fetchOrders_busy p r w :
  isLoadingRef (hook w) = true -> fetchOrders p r w = w.
Proof.
  intros B. unfold fetchOrders. rewrite B. now rewrite orb_true_r.
Qed.

(** Claim C8.  In every state the mounted hook can reach, at most one call of
    [fetchOrders] is suspended, and one is exactly while the in-flight flag
    is set; a call made while the flag is set returns the world as it found
    it (no state change, no request, nothing queued), as do [loadMore],
    [refetch] and the refetch of [refreshSession] (under whatever session
    it was called), and the run that follows is the run without the call. *)
Theorem single_flight (uid : option string) (st : string) (evs : list Event) :
  let w := run (mount uid st) evs in
  (List.length (inflight w) <= 1)%nat
  /\ (inflight w <> [] <-> isLoadingRef (hook w) = true)
  /\ (forall pageNum reset,
        inflight w <> [] ->
        fetchOrders pageNum reset w = w
        /\ requests (fetchOrders pageNum reset w) = requests w
        /\ loadMore w = w
        /\ refetch w = w
        /\ (forall captured, refreshSession captured true w = w)
        /\ forall rest, run w (EvFetchOrders pageNum reset :: rest) = run w rest).
Proof.
  intros w. pose proof (reachable_one_in_flight uid st evs) as I.
  fold w in I. split; [|split].
  - destruct I as [[E _]|[p [E _]]]; rewrite E; cbn; lia.
  - split; [now apply busy_inflight|].
    intros B E. destruct I as [[_ F]|[p [F _]]]; congruence.
  - intros p r Hne. pose proof (busy_inflight w I Hne) as B.
    pose proof (fetchOrders_busy p r w B) as F.
    split; [|split; [|split; [|split; [|split]]]].
    + exact F.
    + now rewrite F.
    + unfold loadMore. rewrite B. cbn [negb]. now rewrite andb_false_r.
    + unfold refetch. now rewrite B.
    + intros captured. unfold refreshSession.
      rewrite under_session_refetch. now rewrite B.
    + intros rest. unfold run; cbn [fold_left step]. now rewrite F.
Qed.

Lemma single_flight_witness :
  let w := run (mount (Some "u1") "authenticated") [] in
  inflight w <> [] /\ fetchOrders 1 true w = w.
Proof.
  intros w.
  assert (Hne : inflight w <> []) by discriminate.
  split; [exact Hne|].
  exact (proj1 (proj2 (proj2 (single_flight (Some "u1") "authenticated" []))
                 1%Z true Hne)).
Defined.

(** ** A fetch that fails *)



(** ** Notifications *)

Lemma nth_error_updateOrder oid u h n o :
  nth_error (orders h) n = Some o ->
  nth_error (orders (updateOrder oid u h)) n = Some (merge_at oid u o).
Proof.
  intros H. rewrite orders_updateOrder, nth_error_map, H. reflexivity.
Qed.

Lemma claimed_update d w :
  notificationType d = "order_claimed" ->
  handleOrderStatusUpdate d w
  = onHook (updateOrder (orderId d)
              (statusAndClaimer
                 (if String.eqb (orderDetails_orderType d) "SELL"
                  then "READY_TO_TRADE" else "IN_PROGRESS")
                 (claimerOf (detail_claimer d)))) w.
Proof.
  intros K. unfold handleOrderStatusUpdate. rewrite K. cbn [String.eqb Ascii.eqb
    Bool.eqb].
  now destruct (String.eqb (orderDetails_orderType d) "SELL").
Qed.

Lemma claimed_entry d w n o :
  notificationType d = "order_claimed" ->
  nth_error (orders (hook w)) n = Some o ->
  nth_error (orders (hook (handleOrderStatusUpdate d w))) n
  = Some (if String.eqb (id o) (orderId d)
          then with_status_claimer
                 (if String.eqb (orderDetails_orderType d) "SELL"
                  then "READY_TO_TRADE" else "IN_PROGRESS")
                 (claimerOf (detail_claimer d)) o
          else o).
Proof.
  intros K Hn. rewrite (claimed_update d w K). cbn [onHook hook].
  rewrite (nth_error_updateOrder _ _ _ n o Hn). unfold merge_at.
  now destruct (String.eqb (id o) (orderId d)).
Qed.

(** Claim C7.  An [order_claimed] notification leaves every entry at its
    position; an entry with the notification's order id gets its claimer
    from the payload and the status READY_TO_TRADE when the payload's order
    type is SELL, IN_PROGRESS otherwise, its other fields kept; entries with
    another id are kept as they are.  A notification of a kind other than
    the four the listener knows leaves the whole world as it was. *)
Theorem claimed_and_unknown_notifications (w : World) (d : Detail) :
  (notificationType d = "order_claimed" ->
   forall n o,
     nth_error (orders (hook w)) n = Some o ->
     nth_error (orders (hook (handleOrderStatusUpdate d w))) n
     = Some (if String.eqb (id o) (orderId d)
             then with_status_claimer
                    (if String.eqb (orderDetails_orderType d) "SELL"
                     then "READY_TO_TRADE" else "IN_PROGRESS")
                    (claimerOf (detail_claimer d)) o
             else o))
  /\ (recognized (notificationType d) = false ->
      handleOrderStatusUpdate d w = w).
Proof.
  split.
  - intros K n o Hn. now apply claimed_entry.
  - unfold recognized. intros R.
    apply orb_false_elim in R. destruct R as [R R4].
    apply orb_false_elim in R. destruct R as [R R3].
    apply orb_false_elim in R. destruct R as [R1 R2].
    unfold handleOrderStatusUpdate. now rewrite R1, R2, R3, R4.
Qed.

Lemma claimed_and_unknown_notifications_witness :
  nth_error
    (orders (hook (handleOrderStatusUpdate
                     (mkDetail "b" "order_claimed" "SELL"
                               (Some (mkClaimerPayload "u3" (Some "carol") None)))
                     claimedWorld))) 1
  = Some (with_status_claimer "READY_TO_TRADE"
            (ClaimerObject (mkUserRef "u3" "carol" None)) (sampleOrder "b"))
  /\ handleOrderStatusUpdate (mkDetail "a" "order_expired" "SELL" None)
                             claimedWorld
     = claimedWorld.
Proof.
  split.
  - exact (proj1 (claimed_and_unknown_notifications claimedWorld
                    (mkDetail "b" "order_claimed" "SELL"
                       (Some (mkClaimerPayload "u3" (Some "carol") None))))
                 eq_refl 1 (sampleOrder "b") eq_refl).
  - exact (proj2 (claimed_and_unknown_notifications claimedWorld
                    (mkDetail "a" "order_expired" "SELL" None)) eq_refl).
Defined.

(** Claim C10.  On an [order_claimed] notification without a claimer, the
    entry with the notification's order id ends with claimer [null],
    whatever claimer it had; with a claimer that has no name (or an empty
    one) it ends with that claimer under the name "Unknown"; with a named
    claimer, under that name. *)
Theorem claimed_without_claimer (w : World) (d : Detail) (n : nat) (o : Order) :
  notificationType d = "order_claimed" ->
  nth_error (orders (hook w)) n = Some o ->
  id o = orderId d ->
  exists o',
    nth_error (orders (hook (handleOrderStatusUpdate d w))) n = Some o'
    /\ (detail_claimer d = None -> claimer o' = ClaimerNull)
    /\ (forall c, detail_claimer d = Some c ->
          cp_name c = None \/ cp_name c = Some "" ->
          claimer o'
          = ClaimerObject (mkUserRef (cp_id c) "Unknown" (cp_inGameName c)))
    /\ (forall c name, detail_claimer d = Some c ->
          cp_name c = Some name -> name <> "" ->
          claimer o'
          = ClaimerObject (mkUserRef (cp_id c) name (cp_inGameName c))).
Proof.
  intros K Hn Hid.
  pose proof (claimed_entry d w n o K Hn) as H.
  rewrite Hid, String.eqb_refl in H.
  eexists. split; [exact H|]. cbn [with_status_claimer claimer].
  repeat split.
  - now intros ->.
  - intros c -> [N|N]; cbn [claimerOf]; now rewrite N.
  - intros c name -> N Hne. cbn [claimerOf]. rewrite N. cbn [nameOrUnknown].
    apply String.eqb_neq in Hne. now rewrite Hne.
Qed.

Lemma claimed_without_claimer_witness :
  claimer (sampleOrder "a") = ClaimerUndefined
  /\ exists o',
       nth_error
         (orders (hook (handleOrderStatusUpdate
                          (mkDetail "a" "order_claimed" "BUY" None)
                          claimedWorld))) 0
       = Some o'
       /\ status o' = "IN_PROGRESS"
       /\ claimer o' = ClaimerNull.
Proof.
  split; [reflexivity|].
  destruct (claimed_without_claimer claimedWorld
              (mkDetail "a" "order_claimed" "BUY" None) 0
              (with_status_claimer "IN_PROGRESS"
                 (ClaimerObject (mkUserRef "u2" "bob" None)) (sampleOrder "a"))
              eq_refl eq_refl eq_refl) as [o' [Hn [Hnull _]]].
  exists o'. split; [exact Hn|]. split; [|exact (Hnull eq_refl)].
  cbn in Hn. injection Hn as <-. reflexivity.
Defined.

(** ** The grace period of a completed order *)


Lemma In_removeOrder oid h o :
  In o (orders (removeOrder oid h)) <-> In o (orders h) /\ id o <> oid.
Proof.
  unfold removeOrder; cbn [setOrders orders]. rewrite filter_In.
  rewrite negb_true_iff, String.eqb_neq. tauto.
Qed.

Lemma fireTimers_subset t tms : forall h o,
  In o (orders (fireTimers t tms h)) -> In o (orders h).
Proof.
  unfold fireTimers.
  induction tms as [|tm tms IH]; intros h o H; cbn [fold_left] in H;
    [assumption|].
  apply IH in H. destruct (due t tm); [|assumption].
  now apply In_removeOrder in H.
Qed.


Lemma fireTimers_removes t tms : forall h tm o,
  In tm tms -> due t tm = true ->
  In o (orders (fireTimers t tms h)) -> id o <> snd tm.
Proof.
  unfold fireTimers.
  induction tms as [|tm0 tms IH]; intros h tm o Htm D Hin; [contradiction|].
  cbn [fold_left] in Hin. destruct Htm as [->|Htm].
  - rewrite D in Hin. apply fireTimers_subset in Hin.
    now apply In_removeOrder in Hin.
  - now apply (IH _ tm o Htm D Hin).
Qed.




End OrderCacheProps.

(** * Properties of the edit form *)
Module EditOrderModalProps.
Import EditOrderModal.

(** ** Submit validation *)

(** Claim C6.  [handleSubmit] raises an alert exactly when the tier is below 1
    or above 10, the price is at most 0, or the amount is at most 0, and
    otherwise hands the form data, as they are, to [onConfirm]; the alert
    names the first violated field, and the three messages differ.  Tiers 0
    and 11 are rejected, 1 and 10 accepted; price 0 is rejected, 0.001
    accepted; amount 0 is rejected, 1 accepted. *)
Theorem submit_validation (st : ModalState) :
  let fd := formData st in
  let badTier := lt (tier fd) (ofZ 1) || gt (tier fd) (ofZ 10) in
  let badPrice := le (pricePerUnit fd) (ofZ 0) in
  let badAmount := le (amount fd) (ofZ 0) in
  ((exists m, handleSubmit st = Alert m)
   <-> badTier || badPrice || badAmount = true)
  /\ (handleSubmit st = OnConfirm fd
      <-> badTier || badPrice || badAmount = false)
  /\ handleSubmit st
     = (if badTier then Alert "Tier must be between 1 and 10"
        else if badPrice then Alert "Price must be greater than 0"
        else if badAmount then Alert "Amount must be greater than 0"
        else OnConfirm fd)
  /\ ("Tier must be between 1 and 10" <> "Price must be greater than 0"
      /\ "Tier must be between 1 and 10" <> "Amount must be greater than 0"
      /\ "Price must be greater than 0" <> "Amount must be greater than 0")
  /\ (forall p a ty,
        handleSubmit (draft (ofZ 0) p a ty)
        = Alert "Tier must be between 1 and 10"
        /\ handleSubmit (draft (ofZ 11) p a ty)
           = Alert "Tier must be between 1 and 10")
  /\ (forall ty,
        handleSubmit (draft (ofZ 1) milli (ofZ 1) ty)
        = OnConfirm (mkFormData (ofZ 1) milli (ofZ 1) ty)
        /\ handleSubmit (draft (ofZ 10) milli (ofZ 1) ty)
           = OnConfirm (mkFormData (ofZ 10) milli (ofZ 1) ty))
  /\ (forall a ty,
        handleSubmit (draft (ofZ 1) (ofZ 0) a ty)
        = Alert "Price must be greater than 0")
  /\ (forall ty,
        handleSubmit (draft (ofZ 1) milli (ofZ 0) ty)
        = Alert "Amount must be greater than 0").
Proof.
  intros fd badTier badPrice badAmount.
  assert (E : handleSubmit st
              = (if badTier then Alert "Tier must be between 1 and 10"
                 else if badPrice then Alert "Price must be greater than 0"
                 else if badAmount then Alert "Amount must be greater than 0"
                 else OnConfirm fd)) by reflexivity.
  repeat split; try reflexivity; try discriminate; try exact E.
  - intros [m H]. rewrite E in H.
    destruct badTier, badPrice, badAmount; try reflexivity; discriminate.
  - intros H. rewrite E.
    destruct badTier, badPrice, badAmount; try discriminate; eexists;
      reflexivity.
  - intros H. rewrite E in H.
    destruct badTier, badPrice, badAmount; try reflexivity; discriminate.
  - intros H. rewrite E.
    destruct badTier, badPrice, badAmount; try discriminate; reflexivity.
Qed.

(** ** The tier handler and the autofill effect *)

Lemma key_not_empty (a b : string) : "" <> a ++ "-" ++ b.
Proof. destruct a; discriminate. Qed.

Section Autofill.

Variable numberToString : number -> string.

Lemma priceKey_not_empty o fd cp :
  String.eqb "" (priceKey numberToString o fd cp) = false.
Proof. apply String.eqb_neq. unfold priceKey. apply key_not_empty. Qed.

(** Claim C5, as the code has it.  For every draft and tier value,
    [handleTierChange] sets the tier to the value, sets [tierChanged],
    resets [userEditedPrice], clears the autofill key and keeps everything
    else.  On an initialised form that re-arms the effect: its next run,
    with a price from the pricing table, writes that price.  On a form that
    is not initialised the effect stays off, whatever it runs with. *)
Theorem handleTierChange_rearms (st : ModalState) (v : number) :
  let st' := handleTierChange v st in
  tier (formData st') = v
  /\ tierChanged st' = true
  /\ userEditedPrice st' = false
  /\ lastPriceUpdateRef st' = ""
  /\ pricePerUnit (formData st') = pricePerUnit (formData st)
  /\ amount (formData st') = amount (formData st)
  /\ orderType (formData st') = orderType (formData st)
  /\ formInitialized st' = formInitialized st
  /\ (formInitialized st = true ->
      forall o p,
        let st'' := autofillEffect numberToString (Some o) (Some p) st' in
        pricePerUnit (formData st'') = p
        /\ tier (formData st'') = v
        /\ lastPriceUpdateRef st''
           = priceKey numberToString o (formData st') (Some p))
  /\ (formInitialized st = false ->
      forall order currentPrice,
        autofillEffect numberToString order currentPrice st' = st').
Proof.
  intros st'. do 8 (split; [reflexivity|]). split.
  - intros I o p st''. subst st'' st'.
    unfold autofillEffect, autofillEffectOf.
    cbn [handleTierChange formInitialized lastPriceUpdateRef userEditedPrice
         tierChanged].
    rewrite I. cbn [negb andb]. rewrite priceKey_not_empty.
    repeat split.
  - intros I order currentPrice. subst st'.
    unfold autofillEffect, autofillEffectOf.
    destruct order; [|reflexivity].
    cbn [handleTierChange formInitialized]. now rewrite I.
Qed.

(** Claim C2, as the code has it.  The effect takes the order, the price of
    the table, [formInitialized], the tier and the two flags from the render
    that created it, and the recorded key from the draft as it is when it
    runs.  It does nothing when, in that render, no order is loaded or the
    form is not initialised.  Otherwise it leaves the draft unchanged when
    the key equals the recorded key; and else it writes the price of the
    table and records the key exactly when, in that render, the price was
    not edited by hand, the tier was changed and a price is known.  So it
    never fires from a render whose draft is pristine; and on the initial
    load of an order (the first after mount, one after the dialog was
    closed, any over a draft whose tier was not changed or whose price was
    typed) the commit leaves the draft the reset effect made, with the
    order's own price. *)
Theorem autofill_effect (order : option OrderCache.Order)
    (currentPrice : option number) (rendered st : ModalState) :
  let st' := autofillEffectOf numberToString order currentPrice rendered st in
  (order = None \/ formInitialized rendered = false -> st' = st)
  /\ (forall o,
        order = Some o -> formInitialized rendered = true ->
        let key := priceKey numberToString o (formData rendered) currentPrice in
        (lastPriceUpdateRef st = key -> st' = st)
        /\ (lastPriceUpdateRef st <> key ->
            (forall p,
               userEditedPrice rendered = false -> tierChanged rendered = true ->
               currentPrice = Some p ->
               pricePerUnit (formData st') = p
               /\ lastPriceUpdateRef st' = key
               /\ tier (formData st') = tier (formData st)
               /\ amount (formData st') = amount (formData st)
               /\ orderType (formData st') = orderType (formData st)
               /\ userEditedPrice st' = userEditedPrice st
               /\ tierChanged st' = tierChanged st
               /\ formInitialized st' = formInitialized st)
            /\ (userEditedPrice rendered = true \/ tierChanged rendered = false
                \/ currentPrice = None -> st' = st))
        /\ (userEditedPrice rendered = false -> tierChanged rendered = false ->
            st' = st))
  /\ (forall o stalePrice price prev,
        formInitialized prev = false \/ tierChanged prev = false
        \/ userEditedPrice prev = true ->
        loadCommit numberToString o stalePrice price prev
        = resetFormEffect (Some o) prev
        /\ pricePerUnit
             (formData (loadCommit numberToString o stalePrice price prev))
           = OrderCache.pricePerUnit o).
Proof.
  intros st'. subst st'. split; [|split].
  - intros [->|I]; [reflexivity|].
    unfold autofillEffectOf. destruct order; [|reflexivity]. now rewrite I.
  - intros o -> I key. unfold autofillEffectOf. rewrite I. cbn [negb].
    fold key. split; [|split].
    + intros ->. now rewrite String.eqb_refl.
    + intros Hne. apply String.eqb_neq in Hne. rewrite Hne. split.
      * intros p U T ->. rewrite U, T. cbn. now repeat split.
      * intros [U|[T| ->]]; [| |reflexivity]; destruct currentPrice;
          try reflexivity; [rewrite U|rewrite T]; cbn [negb andb];
          [reflexivity|now rewrite andb_false_r].
    + intros U T. rewrite U, T.
      destruct (String.eqb (lastPriceUpdateRef st) key); [reflexivity|].
      now destruct currentPrice.
  - intros o stalePrice price prev D.
    assert (E : loadCommit numberToString o stalePrice price prev
                = resetFormEffect (Some o) prev).
    { unfold loadCommit.
      assert (E1 : autofillEffectOf numberToString (Some o) stalePrice prev
                     (resetFormEffect (Some o) prev)
                   = resetFormEffect (Some o) prev).
      { unfold autofillEffectOf.
        destruct (negb (formInitialized prev)) eqn:I; [reflexivity|].
        destruct (String.eqb _ _); [reflexivity|].
        destruct stalePrice as [p|]; [|reflexivity].
        destruct D as [D|[D|D]].
        - rewrite D in I. discriminate I.
        - rewrite D. now rewrite andb_false_r.
        - now rewrite D. }
      rewrite E1. unfold autofillEffect, autofillEffectOf.
      cbn [resetFormEffect formInitialized lastPriceUpdateRef userEditedPrice
           tierChanged negb andb].
      rewrite priceKey_not_empty. now destruct price. }
    split; [exact E|]. now rewrite E.
Qed.

End Autofill.

Lemma handleTierChange_rearms_witness :
  formInitialized edited_draft = true
  /\ userEditedPrice edited_draft = true
  /\ pricePerUnit
       (formData
          (autofillEffect showNumber (Some (OrderCache.sampleOrder "a"))
             (Some (ofZ 20)) (handleTierChange (ofZ 6) edited_draft)))
     = ofZ 20.
Proof.
  split; [reflexivity|]. split; [reflexivity|].
  pose proof (handleTierChange_rearms showNumber edited_draft (ofZ 6)) as H.
  cbv zeta in H.
  destruct H as [_ [_ [_ [_ [_ [_ [_ [_ [H _]]]]]]]]].
  exact (proj1 (H eq_refl (OrderCache.sampleOrder "a") (ofZ 20))).
Defined.

(** Claim C5 as stated fails: on a dialog reopened on the same order, a
    change of tier sets the tier and the flags and clears the key as the
    claim says, yet the effect is not re-armed: run with the price of the
    table for the new tier, it leaves the price as it was. *)
Lemma tier_change_leaves_closed_form_off :
  let o := OrderCache.sampleOrder "a" in
  let st := handleTierChange (ofZ 6) reopened_form in
  tier (formData st) = ofZ 6
  /\ tierChanged st = true
  /\ userEditedPrice st = false
  /\ lastPriceUpdateRef st = ""
  /\ autofillEffect showNumber (Some o) (Some (ofZ 20)) st = st
  /\ pricePerUnit
       (formData (autofillEffect showNumber (Some o) (Some (ofZ 20)) st))
     = ofZ 5
  /\ ofZ 5 <> ofZ 20.
Proof. repeat split; try reflexivity; discriminate. Qed.

Lemma autofill_effect_witness :
  formInitialized armed_draft = true
  /\ pricePerUnit (formData armed_draft) = ofZ 5
  /\ pricePerUnit
       (formData
          (autofillEffectOf showNumber (Some (OrderCache.sampleOrder "a"))
             (Some (ofZ 20)) armed_draft armed_draft))
     = ofZ 20
  /\ loadCommit showNumber (OrderCache.sampleOrder "a") (Some (ofZ 4))
                (Some (ofZ 4)) initialModal
     = resetFormEffect (Some (OrderCache.sampleOrder "a")) initialModal.
Proof.
  split; [reflexivity|]. split; [reflexivity|].
  pose proof (autofill_effect showNumber (Some (OrderCache.sampleOrder "a"))
                (Some (ofZ 20)) armed_draft armed_draft) as H.
  cbv zeta in H. destruct H as [_ [H L]].
  destruct (H (OrderCache.sampleOrder "a") eq_refl eq_refl) as [_ [H2 _]].
  assert (Hne : lastPriceUpdateRef armed_draft
                <> priceKey showNumber (OrderCache.sampleOrder "a")
                     (formData armed_draft) (Some (ofZ 20)))
    by discriminate.
  split; [exact (proj1 (proj1 (H2 Hne) (ofZ 20) eq_refl eq_refl eq_refl))|].
  exact (proj1 (L (OrderCache.sampleOrder "a") (Some (ofZ 4)) (Some (ofZ 4))
                  initialModal (or_introl eq_refl))).
Defined.

(** Claim C2 as stated fails: on a dialog reopened on the same order the form
    is not initialised, and the effect leaves the price alone although the
    key is new, the price was not edited by hand, the tier was changed and a
    price is known. *)
Lemma autofill_blocked_when_not_initialized :
  let o := OrderCache.sampleOrder "a" in
  let st := reopened_draft in
  lastPriceUpdateRef st <> priceKey showNumber o (formData st) (Some (ofZ 20))
  /\ userEditedPrice st = false
  /\ tierChanged st = true
  /\ autofillEffect showNumber (Some o) (Some (ofZ 20)) st = st
  /\ pricePerUnit (formData (autofillEffect showNumber (Some o) (Some (ofZ 20)) st))
     = ofZ 5
  /\ ofZ 5 <> ofZ 20.
Proof. repeat split; try reflexivity; discriminate. Qed.

(** ** The scenarios of the specification *)

(** Arming: an order of tier 3 is loaded and nothing is written; the tier is
    changed to 5 and the table gives 12.5, which is written; the user then
    types a price, changes the tier to 6, the table gives 20, and 20 is
    written. *)
Example autofill_arming :
  let o := OrderCache.sampleOrder "a" in
  let typed := fun _ : string => Fin (999 # 100) in
  let st0 := loadCommit showNumber o (Some (ofZ 4)) (Some (ofZ 4))
               initialModal in
  let st1 := autofillEffect showNumber (Some o) (Some (Fin (25 # 2)))
               (handleTierChange (ofZ 5) st0) in
  let st2 := autofillEffect showNumber (Some o) (Some (Fin (25 # 2)))
               (handlePriceChange typed "9.99" st1) in
  let st3 := autofillEffect showNumber (Some o) (Some (ofZ 20))
               (handleTierChange (ofZ 6) st2) in
  st0 = resetFormEffect (Some o) initialModal
  /\ pricePerUnit (formData st1) = Fin (25 # 2)
  /\ pricePerUnit (formData st2) = Fin (999 # 100)
  /\ pricePerUnit (formData st3) = ofZ 20.
Proof. repeat split. Qed.

(** Disarming: an order is loaded and the user types a price; whatever the
    table then gives, the typed price stays. *)
Example autofill_disarming (p : option number) :
  let o := OrderCache.sampleOrder "a" in
  let typed := fun _ : string => ofZ 7 in
  let st1 := handlePriceChange typed "7"
               (loadCommit showNumber o (Some (ofZ 4)) (Some (ofZ 4))
                  initialModal) in
  pricePerUnit (formData (autofillEffect showNumber (Some o) p st1)) = ofZ 7.
Proof.
  intros o typed st1. unfold autofillEffect, autofillEffectOf.
  cbn [formInitialized st1 handlePriceChange loadCommit resetFormEffect negb].
  destruct (String.eqb _ _); [reflexivity|]. now destruct p.
Qed.

End EditOrderModalProps.

(** * Further properties of the order cache *)
Module OrderCacheMore.
Import OrderCache.
Import OrderCacheProps.

(** ** Removing and patching *)

Lemma setOrders_same (f : list Order -> list Order) (h : HookState) :
  f (orders h) = orders h -> setOrders f h = h.
Proof.
  destruct h as [os ld cu hm tc pg il hi]. unfold setOrders.
  cbn [orders loading currentUser hasMore totalCount page isLoadingRef
       hasInitializedRef].
  intros E. now rewrite E.
Qed.

Lemma setOrders_ext (f g : list Order -> list Order) (h : HookState) :
  f (orders h) = g (orders h) -> setOrders f h = setOrders g h.
Proof. unfold setOrders. now intros ->. Qed.

Lemma filter_all {A : Type} (f : A -> bool) (l : list A) :
  (forall x, In x l -> f x = true) -> filter f l = l.
Proof.
  induction l as [|x l IH]; intros H; [reflexivity|].
  cbn [filter]. rewrite (H x (or_introl eq_refl)). f_equal.
  apply IH. intros y Hy. apply H. now right.
Qed.

Lemma filter_filter {A : Type} (f g : A -> bool) (l : list A) :
  filter f (filter g l) = filter (fun x => g x && f x) l.
Proof.
  induction l as [|x l IH]; [reflexivity|].
  cbn [filter]. destruct (g x); cbn [andb filter]; rewrite IH; reflexivity.
Qed.

(** [removeOrder] leaves exactly the entries with another id; it changes
    nothing when no entry has the id; removing twice is removing once; and
    two removals can be done in either order. *)
Theorem removeOrder_spec (h : HookState) (a b : string) :
  (forall o, In o (orders (removeOrder a h)) <-> In o (orders h) /\ id o <> a)
  /\ ((forall o, In o (orders h) -> id o <> a) -> removeOrder a h = h)
  /\ removeOrder a (removeOrder a h) = removeOrder a h
  /\ removeOrder a (removeOrder b h) = removeOrder b (removeOrder a h).
Proof.
  split; [intros o; apply In_removeOrder|]. split; [|split].
  - intros Hno. unfold removeOrder. apply setOrders_same, filter_all.
    intros o Ho. apply negb_true_iff, String.eqb_neq. now apply Hno.
  - unfold removeOrder, setOrders; cbn [orders loading currentUser hasMore
      totalCount page isLoadingRef hasInitializedRef].
    f_equal. rewrite filter_filter. apply filter_ext. intros o.
    now destruct (negb (String.eqb (id o) a)).
  - unfold removeOrder, setOrders; cbn [orders loading currentUser hasMore
      totalCount page isLoadingRef hasInitializedRef].
    f_equal. rewrite !filter_filter. apply filter_ext. intros o.
    apply andb_comm.
Qed.

Lemma removeOrder_spec_witness :
  (forall o, In o (orders (hook claimedWorld)) -> id o <> "z")
  /\ removeOrder "z" (hook claimedWorld) = hook claimedWorld.
Proof.
  assert (Hno : forall o, In o (orders (hook claimedWorld)) -> id o <> "z").
  { intros o [<-|[<-|[]]]; discriminate. }
  split; [exact Hno|].
  exact (proj1 (proj2 (removeOrder_spec (hook claimedWorld) "z" "z")) Hno).
Defined.

Lemma filter_map_merge_at a b P l :
  keeps_id a P = true ->
  filter (fun o => negb (String.eqb (id o) b)) (map (merge_at a P) l)
  = map (merge_at a P) (filter (fun o => negb (String.eqb (id o) b)) l).
Proof.
  intros Hk. induction l as [|o l IH]; [reflexivity|].
  cbn [map filter]. rewrite (merge_at_id a P o Hk).
  destruct (negb (String.eqb (id o) b)); cbn [map]; now rewrite IH.
Qed.

(** A removed order is not brought back by a patch, and a patch that keeps
    the id does not save an order from removal: patching a removed id
    changes nothing, removing a patched id gives what removing alone gives,
    and a patch commutes with every removal. *)
Theorem update_remove_compose (h : HookState) (a b : string)
    (P : PartialOrder) :
  updateOrder a P (removeOrder a h) = removeOrder a h
  /\ (keeps_id a P = true ->
      removeOrder a (updateOrder a P h) = removeOrder a h
      /\ removeOrder b (updateOrder a P h) = updateOrder a P (removeOrder b h)).
Proof.
  split.
  - unfold updateOrder. apply setOrders_same.
    rewrite <- (map_id (orders (removeOrder a h))) at 2.
    apply map_ext_in. intros o Ho. apply merge_at_other.
    now apply In_removeOrder in Ho.
  - intros Hk.
    assert (C : forall c, removeOrder c (updateOrder a P h)
                          = updateOrder a P (removeOrder c h)).
    { intros c. unfold removeOrder, updateOrder, setOrders;
        cbn [orders loading currentUser hasMore totalCount page isLoadingRef
             hasInitializedRef].
      f_equal. now apply filter_map_merge_at. }
    split; [|apply C].
    rewrite C. unfold updateOrder. apply setOrders_same.
    rewrite <- (map_id (orders (removeOrder a h))) at 2.
    apply map_ext_in. intros o Ho. apply merge_at_other.
    now apply In_removeOrder in Ho.
Qed.

Lemma update_remove_compose_witness :
  keeps_id "a" (statusOnly "FULFILLED") = true
  /\ removeOrder "a" (updateOrder "a" (statusOnly "FULFILLED") (hook claimedWorld))
     = removeOrder "a" (hook claimedWorld).
Proof.
  split; [reflexivity|].
  exact (proj1 (proj2 (update_remove_compose (hook claimedWorld) "a" "b"
                         (statusOnly "FULFILLED")) eq_refl)).
Defined.

(** ** Time *)

Lemma fireTimers_filter t tms : forall h,
  fireTimers t tms h
  = setOrders (filter (fun o => negb (expired t tms (id o)))) h.
Proof.
  unfold fireTimers.
  induction tms as [|tm tms IH]; intros h; cbn [fold_left].
  - symmetry. apply setOrders_same, filter_all. reflexivity.
  - rewrite IH. destruct (due t tm) eqn:D.
    + unfold removeOrder, setOrders; cbn [orders loading currentUser hasMore
        totalCount page isLoadingRef hasInitializedRef].
      f_equal. rewrite filter_filter. apply filter_ext. intros o.
      unfold expired; cbn [existsb]. rewrite D. cbn [andb].
      now rewrite negb_orb.
    + apply setOrders_ext, filter_ext. intros o.
      unfold expired; cbn [existsb]. now rewrite D.
Qed.

Lemma due_mono t1 t2 tm : (t1 <= t2)%Z -> due t1 tm = true -> due t2 tm = true.
Proof. unfold due. rewrite !Z.leb_le. lia. Qed.

Lemma expired_split t1 t2 tms i :
  (t1 <= t2)%Z ->
  expired t2 tms i
  = expired t1 tms i
    || expired t2 (filter (fun tm => negb (due t1 tm)) tms) i.
Proof.
  intros Hle. unfold expired.
  induction tms as [|tm tms IH]; [reflexivity|].
  cbn [existsb filter]. rewrite IH.
  destruct (due t1 tm) eqn:D1; cbn [negb existsb].
  - rewrite (due_mono t1 t2 tm Hle D1). cbn [andb].
    destruct (String.eqb i (snd tm)); [reflexivity|]. reflexivity.
  - cbn [andb orb].
    destruct (due t2 tm && String.eqb i (snd tm)); cbn [orb];
      [now rewrite orb_true_r|reflexivity].
Qed.

Lemma filter_due_twice t1 t2 (tms : list (Z * string)) :
  (t1 <= t2)%Z ->
  filter (fun tm => negb (due t2 tm)) (filter (fun tm => negb (due t1 tm)) tms)
  = filter (fun tm => negb (due t2 tm)) tms.
Proof.
  intros Hle. rewrite filter_filter. apply filter_ext. intros tm.
  destruct (due t1 tm) eqn:D1; [|reflexivity].
  now rewrite (due_mono t1 t2 tm Hle D1).
Qed.

(** When time passes, the entries removed are exactly those whose id has a
    timer that has come due; the other entries stay in their order, and no
    other cell of the hook changes.  Time is additive: letting [a] and then
    [b] milliseconds pass is letting [a + b] pass.  The clock never runs
    backwards. *)
Theorem advance_spec (w : World) (a b : Z) :
  hook (advance a w)
  = setOrders
      (filter (fun o =>
                 negb (expired (now w + Z.max 0 a) (timers w) (id o))))
      (hook w)
  /\ (now w <= now (advance a w))%Z
  /\ ((0 <= a)%Z -> (0 <= b)%Z -> advance b (advance a w) = advance (a + b) w).
Proof.
  split; [apply fireTimers_filter|]. split; [cbn [advance now]; lia|].
  intros Ha Hb. unfold advance at 1 3. cbn [advance hook timers now
    sessionUserId sessionStatus inflight requests console].
  assert (Hle : (now w + Z.max 0 a <= now w + Z.max 0 a + Z.max 0 b)%Z) by lia.
  replace (now w + Z.max 0 (a + b))%Z
    with (now w + Z.max 0 a + Z.max 0 b)%Z by lia.
  f_equal.
  - rewrite !fireTimers_filter. unfold setOrders;
      cbn [orders loading currentUser hasMore totalCount page isLoadingRef
           hasInitializedRef].
    f_equal. rewrite filter_filter. apply filter_ext. intros o.
    rewrite (expired_split _ _ (timers w) (id o) Hle).
    now rewrite negb_orb.
  - now apply filter_due_twice.
Qed.

Lemma advance_spec_witness :
  let w := handleOrderStatusUpdate (mkDetail "b" "order_completed" "SELL" None)
                                   claimedWorld in
  (0 <= 400)%Z /\ (0 <= 600)%Z
  /\ advance 600 (advance 400 w) = advance (400 + 600) w.
Proof.
  intros w. split; [lia|]. split; [lia|].
  apply (proj2 (proj2 (advance_spec w 400 600))); lia.
Defined.

(** ** A fetch that succeeds *)

(** From any reachable state in which [fetchOrders] is accepted, a response
    that carries the current user settles the call at once: the fetched
    batch replaces the list for page 1 or under [reset] and is appended
    otherwise; [hasMore] and [totalCount] come from the response, [page] is
    the page that was asked for; the user is stored, [loading] and the
    in-flight flag are cleared, one request was made and nothing is logged.
    While the request is out, [loading] is set for page 1 only. *)
Theorem successful_fetch (uid : option string) (st : string)
    (evs : list Event) (pageNum : Z) (reset : bool) (data : OrdersResponse)
    (u : User) :
  let w := run (mount uid st) evs in
  truthy (sessionUserId w) = true ->
  isLoadingRef (hook w) = false ->
  resp_currentUser data = Some u ->
  let w1 := fetchOrders pageNum reset w in
  let w2 := fst (resumeOrders (Response true (Some data)) w1) in
  loading (hook w1) = (pageNum =? 1)%Z
  /\ orders (hook w2)
     = (if reset || (pageNum =? 1)%Z then resp_orders data
        else (orders (hook w) ++ resp_orders data)%list)
  /\ hasMore (hook w2) = resp_hasMore data
  /\ totalCount (hook w2) = resp_totalCount data
  /\ page (hook w2) = pageNum
  /\ currentUser (hook w2) = Some u
  /\ loading (hook w2) = false
  /\ isLoadingRef (hook w2) = false
  /\ inflight w2 = []
  /\ requests w2 = (requests w ++ [GetOrders pageNum])%list
  /\ console w2 = console w
  /\ snd (resumeOrders (Response true (Some data)) w1) = Fulfilled.
Proof.
  intros w S B U w1 w2.
  pose proof (reachable_one_in_flight uid st evs) as I. fold w in I.
  pose proof (idle_no_inflight w I B) as E.
  subst w2 w1. unfold fetchOrders. rewrite S, B. cbn [negb orb].
  unfold resumeOrders. cbn. rewrite E. cbn. rewrite U.
  destruct (reset || (pageNum =? 1)%Z); cbn; repeat split.
Qed.

Lemma successful_fetch_witness :
  let w := run (mount None "unauthenticated")
               [EvSession (Some "u1") "authenticated";
                EvOrdersResponse
                  (Response true (Some (samplePage [sampleOrder "a"] true 1)))] in
  let w2 := fst (resumeOrders
                   (Response true (Some (samplePage [sampleOrder "c"] false 7)))
                   (fetchOrders 2 false w)) in
  orders (hook w2) = [sampleOrder "a"; sampleOrder "c"] /\ page (hook w2) = 2%Z.
Proof.
  intros w w2.
  pose proof (successful_fetch None "unauthenticated"
    [EvSession (Some "u1") "authenticated";
     EvOrdersResponse
       (Response true (Some (samplePage [sampleOrder "a"] true 1)))]
    2%Z false (samplePage [sampleOrder "c"] false 7) sampleUser
    eq_refl eq_refl eq_refl) as H.
  cbv zeta in H.
  destruct H as [_ [Ho [_ [_ [Hp _]]]]].
  split; [exact Ho|exact Hp].
Defined.

(** When the response carries no current user, the list and the paging
    cells are written as before but the call stays in flight and asks for
    the user; whatever that second request gives, the list and paging cells
    stay, [loading] and the in-flight flag are cleared and the call is
    fulfilled.  The user is stored only from an [ok] response that parses;
    a thrown or unparsable one is logged as a user error, never as an
    orders error. *)
Theorem user_fallback (uid : option string) (st : string)
    (evs : list Event) (pageNum : Z) (reset : bool) (data : OrdersResponse)
    (r : FetchResult User) :
  let w := run (mount uid st) evs in
  truthy (sessionUserId w) = true ->
  isLoadingRef (hook w) = false ->
  resp_currentUser data = None ->
  let w2 := fst (resumeOrders (Response true (Some data))
                   (fetchOrders pageNum reset w)) in
  let w3 := fst (resumeUser r w2) in
  requests w2 = (requests w ++ [GetOrders pageNum; GetUser])%list
  /\ inflight w2 = [AwaitUser]
  /\ isLoadingRef (hook w2) = true
  /\ loading (hook w2) = (pageNum =? 1)%Z
  /\ orders (hook w2)
     = (if reset || (pageNum =? 1)%Z then resp_orders data
        else (orders (hook w) ++ resp_orders data)%list)
  /\ orders (hook w3) = orders (hook w2)
  /\ page (hook w3) = pageNum
  /\ hasMore (hook w3) = resp_hasMore data
  /\ totalCount (hook w3) = resp_totalCount data
  /\ loading (hook w3) = false
  /\ isLoadingRef (hook w3) = false
  /\ inflight w3 = []
  /\ requests w3 = requests w2
  /\ snd (resumeUser r w2) = Fulfilled
  /\ currentUser (hook w3)
     = match r with
       | Response true (Some userData) => Some userData
       | _ => currentUser (hook w)
       end
  /\ console w3
     = match r with
       | FetchThrows _ | Response true None =>
           (console w ++ ["Error fetching user data:"])%list
       | _ => console w
       end.
Proof.
  intros w S B U w2 w3.
  pose proof (reachable_one_in_flight uid st evs) as I. fold w in I.
  pose proof (idle_no_inflight w I B) as E.
  subst w3 w2. unfold fetchOrders. rewrite S, B. cbn [negb orb].
  unfold resumeOrders. cbn. rewrite E. cbn. rewrite U.
  unfold resumeUser.
  destruct (reset || (pageNum =? 1)%Z); cbn;
    destruct r as [e|[|] [ud|]]; cbn; repeat split; now rewrite <- app_assoc.
Qed.

Lemma user_fallback_witness :
  let w := run (mount (Some "u1") "authenticated")
               [EvOrdersResponse
                  (Response true (Some (samplePage [sampleOrder "a"] true 1)))] in
  let data := mkOrdersResponse [sampleOrder "c"] 2 false 2 50 None in
  let w3 := fst (resumeUser (Response false None)
                   (fst (resumeOrders (Response true (Some data))
                           (fetchOrders 2 false w)))) in
  orders (hook w3) = [sampleOrder "a"; sampleOrder "c"]
  /\ currentUser (hook w3) = Some sampleUser
  /\ loading (hook w3) = false.
Proof.
  intros w data w3.
  pose proof (user_fallback (Some "u1") "authenticated"
    [EvOrdersResponse
       (Response true (Some (samplePage [sampleOrder "a"] true 1)))]
    2%Z false data (Response false None) eq_refl eq_refl eq_refl) as H.
  cbv zeta in H.
  destruct H as [_ [_ [_ [_ [Ho2 [Ho3 [_ [_ [_ [Hl [_ [_ [_ [_ [Hu _]]]]]]]]]]]]]]].
  split; [exact (eq_trans Ho3 Ho2)|]. split; [exact Hu|exact Hl].
Defined.

(** ** Nobody signed in *)

Lemma fetchOrders_signed_out p r w :
  truthy (sessionUserId w) = false -> fetchOrders p r w = w.
Proof. intros S. unfold fetchOrders. now rewrite S. Qed.

Lemma handleOrderStatusUpdate_empty d w :
  orders (hook w) = [] ->
  hook (handleOrderStatusUpdate d w) = hook w.
Proof.
  intros E. unfold handleOrderStatusUpdate, applyStatusUpdate.
  split_ifs; try reflexivity; cbn [setTimeout onHook hook]; unfold updateOrder;
    apply setOrders_same; now rewrite E.
Qed.

Lemma handleOrderStatusUpdate_frame d w :
  sessionUserId (handleOrderStatusUpdate d w) = sessionUserId w
  /\ sessionStatus (handleOrderStatusUpdate d w) = sessionStatus w
  /\ inflight (handleOrderStatusUpdate d w) = inflight w
  /\ requests (handleOrderStatusUpdate d w) = requests w
  /\ console (handleOrderStatusUpdate d w) = console w
  /\ now (handleOrderStatusUpdate d w) = now w.
Proof.
  unfold handleOrderStatusUpdate, applyStatusUpdate.
  split_ifs; repeat split.
Qed.

Lemma step_dormant w e :
  signed_out [e] = true -> dormant w -> dormant (step w e).
Proof.
  unfold signed_out; cbn [forallb]. rewrite andb_true_r.
  intros He (S & R & F & O & L & B).
  destruct e; cbn [step].
  - apply negb_true_iff in He. unfold sessionChanges.
    destruct (same_id (sessionUserId w) uid && String.eqb (sessionStatus w) st);
      [repeat split; assumption|].
    unfold initialLoadEffect. cbn [setSession sessionStatus sessionUserId hook].
    rewrite He. split_ifs; repeat split; assumption.
  - rewrite (fetchOrders_signed_out _ _ w S). now repeat split.
  - unfold loadMore. rewrite (fetchOrders_signed_out _ _ w S).
    split_ifs; now repeat split.
  - unfold refetch. rewrite B. cbn [negb].
    rewrite fetchOrders_signed_out by exact S. now repeat split.
  - apply negb_true_iff in He. unfold refreshSession. destruct updated.
    + rewrite under_session_refetch, B, He. now repeat split.
    + now repeat split.
  - unfold resumeOrders. rewrite F. now repeat split.
  - unfold resumeUser. rewrite F. now repeat split.
  - repeat split; try assumption. cbn [onHook hook updateOrder setOrders orders].
    now rewrite O.
  - repeat split; try assumption. cbn [onHook hook removeOrder setOrders orders].
    now rewrite O.
  - destruct (handleOrderStatusUpdate_frame d w) as (F1 & _ & F3 & F4 & _).
    unfold dormant. rewrite F1, F3, F4, (handleOrderStatusUpdate_empty d w O).
    now repeat split.
  - unfold dormant. cbn [advance sessionUserId requests inflight hook].
    rewrite fireTimers_filter. cbn [setOrders orders loading isLoadingRef].
    rewrite O. now repeat split.
Qed.

(** While the session has no user id, the hook does nothing: over every run
    in which no session with a user id arrives, whatever is called, no
    request is ever made, the list stays empty and [loading] stays set, as
    it is from the first render. *)
Theorem signed_out_never_fetches (uid : option string) (st : string)
    (evs : list Event) :
  truthy uid = false ->
  signed_out evs = true ->
  let w := run (mount uid st) evs in
  requests w = [] /\ inflight w = [] /\ orders (hook w) = []
  /\ loading (hook w) = true.
Proof.
  intros S Hev w.
  assert (D : dormant w).
  { subst w.
    assert (D0 : dormant (mount uid st)).
    { unfold mount, initialLoadEffect.
      cbn [initialWorld sessionStatus sessionUserId hook initialHook
           hasInitializedRef]. rewrite S.
      split_ifs; now repeat split. }
    revert D0 Hev. generalize (mount uid st).
    induction evs as [|e evs IH]; intros w0 D0 Hev; [exact D0|].
    unfold signed_out in Hev. cbn [forallb] in Hev.
    apply andb_prop in Hev. destruct Hev as [He Hrest].
    unfold run; cbn [fold_left]. apply IH; [|exact Hrest].
    apply step_dormant; [|exact D0].
    unfold signed_out; cbn [forallb]. now rewrite He. }
  destruct D as (_ & R & F & O & L & _). now repeat split.
Qed.

Lemma signed_out_never_fetches_witness :
  let w := run (mount None "unauthenticated")
               [EvRefetch; EvLoadMore; EvFetchOrders 1 true;
                EvSession (Some "") "authenticated"; EvAdvance 5000] in
  requests w = [] /\ loading (hook w) = true.
Proof.
  intros w.
  destruct (signed_out_never_fetches None "unauthenticated"
              [EvRefetch; EvLoadMore; EvFetchOrders 1 true;
               EvSession (Some "") "authenticated"; EvAdvance 5000]
              eq_refl eq_refl) as [R [_ [_ L]]].
  split; [exact R|exact L].
Defined.

(** ** The loading flag *)

Lemma loading_tracks_flight_ext w w' :
  requests w' = requests w ->
  isLoadingRef (hook w') = isLoadingRef (hook w) ->
  loading (hook w') = loading (hook w) ->
  loading_tracks_flight w -> loading_tracks_flight w'.
Proof. unfold loading_tracks_flight. intros -> -> ->. tauto. Qed.

Lemma fetchOrders_tracks p r w :
  loading_tracks_flight w -> loading_tracks_flight (fetchOrders p r w).
Proof.
  intros K. unfold fetchOrders. split_ifs; [assumption|].
  right. left. reflexivity.
Qed.

Lemma refetch_tracks w :
  loading_tracks_flight w -> loading_tracks_flight (refetch w).
Proof.
  intros K. unfold refetch. split_ifs; [|assumption].
  apply fetchOrders_tracks. revert K. now apply loading_tracks_flight_ext.
Qed.

Lemma step_tracks w e :
  one_in_flight w -> loading_tracks_flight w -> loading_tracks_flight (step w e).
Proof.
  intros I K. destruct e; cbn [step].
  - unfold sessionChanges.
    destruct (same_id (sessionUserId w) uid && String.eqb (sessionStatus w) st);
      [revert K; now apply loading_tracks_flight_ext|].
    unfold initialLoadEffect. split_ifs;
      try (revert K; now apply loading_tracks_flight_ext).
    apply fetchOrders_tracks. revert K. now apply loading_tracks_flight_ext.
  - now apply fetchOrders_tracks.
  - unfold loadMore. split_ifs; [now apply fetchOrders_tracks|assumption].
  - now apply refetch_tracks.
  - unfold refreshSession. destruct updated;
      [|revert K; now apply loading_tracks_flight_ext].
    rewrite under_session_refetch.
    destruct (isLoadingRef (hook w)); [assumption|].
    destruct (truthy captured); [right; left; reflexivity|].
    revert K. now apply loading_tracks_flight_ext.
  - unfold resumeOrders.
    destruct I as [[E B]|[q [E B]]]; rewrite E; [assumption|].
    destruct q as [p rs|]; [|assumption].
    destruct r as [e|[|] [data|]]; cbn [afterOrdersResponse settle fst];
      try (right; right; reflexivity).
    destruct (resp_currentUser data); cbn [settle fst];
      [right; right; reflexivity|].
    right. left. destruct (rs || (p =? 1)%Z); exact B.
  - unfold resumeUser.
    destruct I as [[E B]|[q [E B]]]; rewrite E; [assumption|].
    destruct q as [p rs|]; [assumption|].
    destruct r as [e|[|] [u|]]; right; right; reflexivity.
  - revert K. now apply loading_tracks_flight_ext.
  - revert K. now apply loading_tracks_flight_ext.
  - destruct (handleOrderStatusUpdate_frame d w) as (_ & _ & _ & F4 & _).
    revert K. apply loading_tracks_flight_ext; [exact F4| |];
      unfold handleOrderStatusUpdate, applyStatusUpdate; split_ifs; reflexivity.
  - revert K. apply loading_tracks_flight_ext; [reflexivity| |];
      cbn [advance hook]; now rewrite fireTimers_filter.
Qed.

(** In every state the mounted hook can reach, once any request has been
    made [loading] is set only while a call is in flight: with no call in
    flight it is cleared, however the last call ended. *)
Theorem loading_clears_when_settled (uid : option string) (st : string)
    (evs : list Event) :
  let w := run (mount uid st) evs in
  requests w <> [] -> isLoadingRef (hook w) = false -> loading (hook w) = false.
Proof.
  intros w R B.
  assert (K : one_in_flight w /\ loading_tracks_flight w).
  { subst w.
    assert (K0 : one_in_flight (mount uid st)
                 /\ loading_tracks_flight (mount uid st)).
    { split; [apply mount_one_in_flight|].
      unfold mount, initialLoadEffect. split_ifs; try (now left).
      apply fetchOrders_tracks. now left. }
    clear R B. revert K0. generalize (mount uid st).
    induction evs as [|e evs IH]; intros w0 K0; [exact K0|].
    unfold run; cbn [fold_left]. apply IH. destruct K0 as [I0 K0].
    split; [now apply step_one_in_flight|now apply step_tracks]. }
  destruct K as [_ [K|[K|K]]]; [contradiction|congruence|exact K].
Qed.

Lemma loading_clears_when_settled_witness :
  let w := run (mount (Some "u1") "authenticated")
               [EvOrdersResponse (FetchThrows "offline")] in
  requests w <> [] /\ loading (hook w) = false.
Proof.
  intros w.
  assert (R : requests w <> []) by discriminate.
  split; [exact R|].
  exact (loading_clears_when_settled (Some "u1") "authenticated"
           [EvOrdersResponse (FetchThrows "offline")] R eq_refl).
Defined.

(** ** The initial load *)

Lemma initial_load_phase_ext w w' :
  hasInitializedRef (hook w') = hasInitializedRef (hook w) ->
  isLoadingRef (hook w') = isLoadingRef (hook w) ->
  requests w' = requests w ->
  inflight w' = inflight w ->
  initial_load_phase w -> initial_load_phase w'.
Proof. unfold initial_load_phase. intros -> -> -> ->. tauto. Qed.

Lemma initialLoadEffect_phase w :
  initial_load_phase w -> initial_load_phase (initialLoadEffect w).
Proof.
  intros P. unfold initialLoadEffect.
  destruct (String.eqb (sessionStatus w) "loading"); cbn [orb]; [assumption|].
  destruct (hasInitializedRef (hook w)) eqn:H; [assumption|].
  destruct (truthy (sessionUserId w)) eqn:S; [|assumption].
  destruct P as [(_ & B & R & F)|[H' _]]; [|congruence].
  unfold fetchOrders. cbn [onHook sessionUserId hook setHasInitializedRef
    isLoadingRef]. rewrite S, B. cbn [negb orb].
  right. split; [reflexivity|]. left. cbn. rewrite R, F. now split.
Qed.

Lemma step_phase w e :
  automatic [e] = true -> initial_load_phase w -> initial_load_phase (step w e).
Proof.
  unfold automatic; cbn [forallb]. rewrite andb_true_r.
  intros He P. destruct e; try discriminate; cbn [step].
  - unfold sessionChanges.
    destruct (same_id (sessionUserId w) uid && String.eqb (sessionStatus w) st);
      [revert P; now apply initial_load_phase_ext|].
    apply initialLoadEffect_phase. revert P. now apply initial_load_phase_ext.
  - unfold resumeOrders.
    destruct P as [(H & B & R & F)|[H [[R F]|[[R F]|(F & B & R)]]]];
      rewrite F; try (left; now repeat split);
      try (right; split; [exact H|]; tauto).
    right.
    destruct r as [e|[|] [data|]]; cbn [afterOrdersResponse settle fst];
      try (split; [exact H|]; right; right; cbn; rewrite R; tauto).
    destruct (resp_currentUser data); cbn [settle fst orb Z.eqb].
    + split; [exact H|]. right; right. cbn. rewrite R. tauto.
    + split; [exact H|]. right; left. cbn. rewrite R. tauto.
  - unfold resumeUser.
    destruct P as [(H & B & R & F)|[H [[R F]|[[R F]|(F & B & R)]]]];
      rewrite F; try (left; now repeat split);
      try (right; split; [exact H|]; tauto).
    right.
    destruct r as [e|[|] [u|]]; cbn [afterUserResponse settle fst];
      (split; [exact H|]; right; right; cbn; rewrite R; tauto).
  - revert P. now apply initial_load_phase_ext.
  - revert P. now apply initial_load_phase_ext.
  - destruct (handleOrderStatusUpdate_frame d w) as (_ & _ & F3 & F4 & _).
    revert P. apply initial_load_phase_ext; try assumption;
      unfold handleOrderStatusUpdate, applyStatusUpdate; split_ifs; reflexivity.
  - revert P. apply initial_load_phase_ext; try reflexivity;
      cbn [advance hook]; now rewrite fireTimers_filter.
Qed.

(** As long as the component calls neither [loadMore] nor [refetch] nor
    [refreshSession], the hook fetches at most once, and page 1: however
    often the session changes and whatever else happens, the requests made
    are none, or the first page, or the first page followed by the user. *)
Theorem initial_load_once (uid : option string) (st : string)
    (evs : list Event) :
  automatic evs = true ->
  let w := run (mount uid st) evs in
  requests w = [] \/ requests w = [GetOrders 1]
  \/ requests w = [GetOrders 1; GetUser].
Proof.
  intros Hev w.
  assert (P : initial_load_phase w).
  { subst w.
    assert (P0 : initial_load_phase (mount uid st)).
    { apply initialLoadEffect_phase. left. now repeat split. }
    revert P0 Hev. generalize (mount uid st).
    induction evs as [|e evs IH]; intros w0 P0 Hev; [exact P0|].
    unfold automatic in Hev. cbn [forallb] in Hev.
    apply andb_prop in Hev. destruct Hev as [He Hrest].
    unfold run; cbn [fold_left]. apply IH; [|exact Hrest].
    apply step_phase; [|exact P0].
    unfold automatic; cbn [forallb]. now rewrite He. }
  destruct P as [(_ & _ & R & _)|[_ [[R _]|[[R _]|(_ & _ & [R|R])]]]]; tauto.
Qed.

Lemma initial_load_once_witness :
  requests (run (mount None "loading")
              [EvSession (Some "u1") "authenticated";
               EvSession (Some "u1") "loading";
               EvSession (Some "u1") "authenticated";
               EvOrdersResponse (Response false None);
               EvSession (Some "u2") "authenticated"])
  = [GetOrders 1].
Proof.
  destruct (initial_load_once None "loading"
              [EvSession (Some "u1") "authenticated";
               EvSession (Some "u1") "loading";
               EvSession (Some "u1") "authenticated";
               EvOrdersResponse (Response false None);
               EvSession (Some "u2") "authenticated"] eq_refl)
    as [R|[R|R]]; [discriminate R|exact R|discriminate R].
Defined.



(** ** Paging *)

(** After a page has loaded, [loadMore] asks for the page after it when the
    response said there is more, and does nothing when it said there is
    not. *)
Theorem load_more_after_page (uid : option string) (st : string)
    (evs : list Event) (pageNum : Z) (reset : bool) (data : OrdersResponse)
    (u : User) :
  let w := run (mount uid st) evs in
  truthy (sessionUserId w) = true ->
  isLoadingRef (hook w) = false ->
  resp_currentUser data = Some u ->
  let w2 := fst (resumeOrders (Response true (Some data))
                   (fetchOrders pageNum reset w)) in
  (resp_hasMore data = true ->
   requests (loadMore w2) = (requests w2 ++ [GetOrders (pageNum + 1)])%list
   /\ inflight (loadMore w2) = [AwaitOrders (pageNum + 1) false])
  /\ (resp_hasMore data = false -> loadMore w2 = w2).
Proof.
  intros w S B U w2.
  pose proof (reachable_one_in_flight uid st evs) as I. fold w in I.
  pose proof (idle_no_inflight w I B) as E.
  subst w2. unfold fetchOrders. rewrite S, B. cbn [negb orb].
  unfold resumeOrders. cbn [fetch onHook inflight]. rewrite E. cbn [app].
  cbn [afterOrdersResponse]. rewrite U. cbn [settle fst].
  split; intros M; unfold loadMore, fetchOrders;
    destruct (reset || (pageNum =? 1)%Z); cbn; rewrite M; cbn;
    try reflexivity; rewrite S; cbn; now split.
Qed.

Lemma load_more_after_page_witness :
  let w := run (mount (Some "u1") "authenticated")
               [EvOrdersResponse (Response false None)] in
  let w2 := fst (resumeOrders
                   (Response true (Some (samplePage [sampleOrder "a"] true 1)))
                   (fetchOrders 1 true w)) in
  requests (loadMore w2) = [GetOrders 1; GetOrders 1; GetOrders 2].
Proof.
  intros w w2.
  exact (proj1 (proj1 (load_more_after_page (Some "u1") "authenticated"
    [EvOrdersResponse (Response false None)] 1%Z true
    (samplePage [sampleOrder "a"] true 1) sampleUser
    eq_refl eq_refl eq_refl) eq_refl)).
Defined.

(** A page that fails to load is asked for again: when [loadMore] is
    accepted and its fetch fails, the next [loadMore] requests the same
    page number. *)
Theorem load_more_retries_failed_page (uid : option string) (st : string)
    (evs : list Event) (r : FetchResult OrdersResponse) :
  let w := run (mount uid st) evs in
  truthy (sessionUserId w) = true ->
  isLoadingRef (hook w) = false ->
  loading (hook w) = false ->
  hasMore (hook w) = true ->
  failing r = true ->
  let w1 := loadMore w in
  let w2 := fst (resumeOrders r w1) in
  requests w1 = (requests w ++ [GetOrders (page (hook w) + 1)])%list
  /\ requests (loadMore w2)
     = (requests w ++ [GetOrders (page (hook w) + 1);
                       GetOrders (page (hook w) + 1)])%list.
Proof.
  intros w S B L M F w1 w2.
  pose proof (reachable_one_in_flight uid st evs) as I. fold w in I.
  pose proof (idle_no_inflight w I B) as E.
  assert (Ha : loadMore w
               = fetch (GetOrders (page (hook w) + 1))
                       (AwaitOrders (page (hook w) + 1) false)
                       (onHook (setLoading (page (hook w) + 1 =? 1)%Z)
                          (onHook (setIsLoadingRef true) w))).
  { unfold loadMore. rewrite M, L, B. cbn [negb andb].
    unfold fetchOrders. now rewrite S, B. }
  subst w2 w1. rewrite Ha. split; [reflexivity|].
  unfold resumeOrders. cbn [fetch onHook inflight]. rewrite E. cbn [app].
  destruct r as [e|[|] [data|]]; try discriminate F;
    cbn [afterOrdersResponse settle fst]; unfold loadMore, fetchOrders; cbn;
    rewrite M, S; cbn; now rewrite <- app_assoc.
Qed.

Lemma load_more_retries_failed_page_witness :
  let w := run (mount (Some "u1") "authenticated")
               [EvOrdersResponse
                  (Response true (Some (samplePage [sampleOrder "a"] true 1)))] in
  requests (loadMore (fst (resumeOrders (FetchThrows "offline") (loadMore w))))
  = [GetOrders 1; GetOrders 2; GetOrders 2].
Proof.
  intros w.
  exact (proj2 (load_more_retries_failed_page (Some "u1") "authenticated"
    [EvOrdersResponse
       (Response true (Some (samplePage [sampleOrder "a"] true 1)))]
    (FetchThrows "offline") eq_refl eq_refl eq_refl eq_refl eq_refl)).
Defined.

(** ** Timers are not cancelled *)

Lemma fetchOrders_timers p r w :
  timers (fetchOrders p r w) = timers w /\ now (fetchOrders p r w) = now w.
Proof. unfold fetchOrders. split_ifs; now split. Qed.

Lemma refetch_timers w :
  timers (refetch w) = timers w /\ now (refetch w) = now w.
Proof.
  unfold refetch. split_ifs; [|now split].
  apply (fetchOrders_timers 1 true (onHook (setHasInitializedRef false) w)).
Qed.

Lemma sessionChanges_timers uid st w :
  timers (sessionChanges uid st w) = timers w
  /\ now (sessionChanges uid st w) = now w.
Proof.
  unfold sessionChanges, initialLoadEffect. split_ifs; try (now split).
  apply (fetchOrders_timers 1 true
           (onHook (setHasInitializedRef true) (setSession uid st w))).
Qed.

Lemma refreshSession_timers uid updated w :
  timers (refreshSession uid updated w) = timers w
  /\ now (refreshSession uid updated w) = now w.
Proof.
  unfold refreshSession. destruct updated; [|now split].
  rewrite under_session_refetch. split_ifs; now split.
Qed.

Lemma resumeOrders_timers r w :
  timers (fst (resumeOrders r w)) = timers w
  /\ now (fst (resumeOrders r w)) = now w.
Proof.
  unfold resumeOrders. destruct (inflight w) as [|[p rs|] rest];
    try (now split).
  destruct r as [e|[|] [data|]]; cbn [afterOrdersResponse settle fst];
    try (now split).
  destruct (resp_currentUser data), (rs || (p =? 1)%Z); now split.
Qed.

Lemma resumeUser_timers r w :
  timers (fst (resumeUser r w)) = timers w
  /\ now (fst (resumeUser r w)) = now w.
Proof.
  unfold resumeUser. destruct (inflight w) as [|[p rs|] rest];
    try (now split).
  destruct r as [e|[|] [u|]]; now split.
Qed.

Lemma handleOrderStatusUpdate_timers d w :
  timers (handleOrderStatusUpdate d w)
  = if String.eqb (notificationType d) "order_completed"
    then (timers w ++ [((now w + 1000)%Z, orderId d)])%list
    else timers w.
Proof.
  unfold handleOrderStatusUpdate, applyStatusUpdate.
  destruct (String.eqb (notificationType d) "order_claimed") eqn:K1.
  - apply String.eqb_eq in K1. rewrite K1. cbn. now split_ifs.
  - destruct (String.eqb (notificationType d) "order_ready") eqn:K2.
    + apply String.eqb_eq in K2. rewrite K2. cbn. now split_ifs.
    + destruct (String.eqb (notificationType d) "order_completed");
        [reflexivity|]. now split_ifs.
Qed.

(** What an event other than the passing of time does to the timers: it
    keeps them all, in their order, and keeps the clock. *)
Lemma step_timers w e :
  no_advance [e] = true ->
  (exists extra, timers (step w e) = (timers w ++ extra)%list)
  /\ now (step w e) = now w.
Proof.
  intros He. destruct e; try discriminate He; cbn [step].
  - destruct (sessionChanges_timers uid st w) as [T N]. rewrite T, N.
    split; [exists []; now rewrite app_nil_r|reflexivity].
  - destruct (fetchOrders_timers pageNum reset w) as [T N]. rewrite T, N.
    split; [exists []; now rewrite app_nil_r|reflexivity].
  - unfold loadMore. split_ifs;
      [destruct (fetchOrders_timers (page (hook w) + 1) false w) as [T N];
       rewrite T, N|];
      (split; [exists []; now rewrite app_nil_r|reflexivity]).
  - destruct (refetch_timers w) as [T N]. rewrite T, N.
    split; [exists []; now rewrite app_nil_r|reflexivity].
  - destruct (refreshSession_timers captured updated w) as [T N].
    rewrite T, N. split; [exists []; now rewrite app_nil_r|reflexivity].
  - destruct (resumeOrders_timers r w) as [T N]. rewrite T, N.
    split; [exists []; now rewrite app_nil_r|reflexivity].
  - destruct (resumeUser_timers r w) as [T N]. rewrite T, N.
    split; [exists []; now rewrite app_nil_r|reflexivity].
  - split; [exists []; cbn; now rewrite app_nil_r|reflexivity].
  - split; [exists []; cbn; now rewrite app_nil_r|reflexivity].
  - rewrite handleOrderStatusUpdate_timers.
    split; [|apply handleOrderStatusUpdate_frame].
    destruct (String.eqb (notificationType d) "order_completed");
      [eexists; reflexivity|exists []; now rewrite app_nil_r].
Qed.

Lemma run_timers evs : forall w,
  no_advance evs = true ->
  (exists extra, timers (run w evs) = (timers w ++ extra)%list)
  /\ now (run w evs) = now w.
Proof.
  induction evs as [|e evs IH]; intros w Hev.
  - split; [exists []; cbn; now rewrite app_nil_r|reflexivity].
  - unfold no_advance in Hev. cbn [forallb] in Hev.
    apply andb_prop in Hev. destruct Hev as [He Hrest].
    unfold run; cbn [fold_left].
    destruct (IH (step w e) Hrest) as [[x2 T2] N2].
    destruct (step_timers w e) as [[x1 T1] N1].
    { unfold no_advance; cbn [forallb]. now rewrite He. }
    unfold run in T2, N2. rewrite T2, N2, T1, N1.
    split; [exists (x1 ++ x2)%list; now rewrite app_assoc|reflexivity].
Qed.

(** The removal timer has no way to be cancelled.  Whatever happens while
    the clock stands (fetches settling, a full refresh, patches, further
    notifications), a timer that is set stays set; and when its time comes,
    no entry with its order id is left in the list, also when a fetch has
    brought the order back in the meantime. *)
Theorem timer_fires_whatever_happened (w : World) (evs : list Event)
    (tm : Z * string) (dt : Z) :
  In tm (timers w) ->
  no_advance evs = true ->
  In tm (timers (run w evs))
  /\ ((fst tm <= now w + Z.max 0 dt)%Z ->
      forall o, In o (orders (hook (advance dt (run w evs)))) ->
                id o <> snd tm).
Proof.
  intros Htm Hev.
  destruct (run_timers evs w Hev) as [[extra T] N].
  assert (Hin : In tm (timers (run w evs))).
  { rewrite T. apply in_or_app. now left. }
  split; [exact Hin|].
  intros Hdue o Ho. cbn [advance hook] in Ho.
  eapply fireTimers_removes; [exact Hin| |exact Ho].
  unfold due. apply Z.leb_le. rewrite N. exact Hdue.
Qed.

Lemma timer_fires_whatever_happened_witness :
  let w := run (mount (Some "u1") "authenticated")
               [EvOrdersResponse
                  (Response true
                     (Some (samplePage [sampleOrder "a"; sampleOrder "b"] false 1)));
                EvNotification (mkDetail "b" "order_completed" "SELL" None);
                EvAdvance 500] in
  let refresh := [EvRefetch;
                  EvOrdersResponse
                    (Response true
                       (Some (samplePage [sampleOrder "a"; sampleOrder "b"]
                                         false 1)))] in
  ids (orders (hook (run w refresh))) = ["a"; "b"]
  /\ forall o, In o (orders (hook (advance 500 (run w refresh)))) ->
               id o <> "b".
Proof.
  intros w refresh. split; [reflexivity|].
  apply (proj2 (timer_fires_whatever_happened w refresh (1000%Z, "b") 500
                  (or_introl eq_refl) eq_refl)).
  cbn. lia.
Defined.

Lemma step_timers_ahead w e : timers_ahead w -> timers_ahead (step w e).
Proof.
  intros A. destruct e.
  11: { intros tm Htm. cbn [step advance timers now] in *.
        apply filter_In in Htm. destruct Htm as [Htm D].
        apply negb_true_iff in D. unfold due in D. apply Z.leb_gt in D.
        specialize (A tm Htm). lia. }
  all: match goal with
       | |- timers_ahead (step ?w0 ?e0) =>
           destruct (step_timers w0 e0 eq_refl) as [_ N]
       end.
  all: intros tm Htm; rewrite N.
  10: { cbn [step] in Htm. rewrite handleOrderStatusUpdate_timers in Htm.
       destruct (String.eqb (notificationType d) "order_completed");
         [|now apply A].
       apply in_app_or in Htm. destruct Htm as [Htm|[<-|[]]];
         [now apply A|cbn [fst]; lia]. }
  all: apply A; cbn [step] in Htm.
  - now rewrite (proj1 (sessionChanges_timers _ _ _)) in Htm.
  - now rewrite (proj1 (fetchOrders_timers _ _ _)) in Htm.
  - unfold loadMore in Htm. revert Htm. split_ifs; try easy.
    now rewrite (proj1 (fetchOrders_timers _ _ _)).
  - now rewrite (proj1 (refetch_timers _)) in Htm.
  - now rewrite (proj1 (refreshSession_timers _ _ _)) in Htm.
  - now rewrite (proj1 (resumeOrders_timers _ _)) in Htm.
  - now rewrite (proj1 (resumeUser_timers _ _)) in Htm.
  - exact Htm.
  - exact Htm.
Qed.

(** In every state the mounted hook can reach, each timer still set comes
    due within the next 1000 ms and none is overdue; so once 1000 ms pass
    without a further notification, no timer is left. *)
Theorem timers_within_a_second (uid : option string) (st : string)
    (evs : list Event) :
  let w := run (mount uid st) evs in
  (forall tm, In tm (timers w) -> (now w < fst tm <= now w + 1000)%Z)
  /\ (forall dt, (1000 <= dt)%Z -> timers (advance dt w) = []).
Proof.
  intros w.
  assert (A : timers_ahead w).
  { subst w.
    assert (A0 : timers_ahead (mount uid st)).
    { intros tm Htm. unfold mount, initialLoadEffect in Htm. revert Htm.
      split_ifs; try easy.
      now rewrite (proj1 (fetchOrders_timers _ _ _)). }
    revert A0. generalize (mount uid st).
    induction evs as [|e evs IH]; intros w0 A0; [exact A0|].
    unfold run; cbn [fold_left]. apply IH. now apply step_timers_ahead. }
  split; [exact A|].
  intros dt Hdt. cbn [advance timers].
  destruct (filter _ (timers w)) as [|tm l] eqn:E; [reflexivity|].
  assert (Hin : In tm (filter (fun tm => negb (due (now w + Z.max 0 dt) tm))
                         (timers w))) by (rewrite E; now left).
  apply filter_In in Hin. destruct Hin as [Hin D].
  apply negb_true_iff in D. unfold due in D. apply Z.leb_gt in D.
  specialize (A tm Hin). lia.
Qed.

Lemma timers_within_a_second_witness :
  let w := run (mount (Some "u1") "authenticated")
               [EvNotification (mkDetail "b" "order_completed" "SELL" None);
                EvAdvance 300;
                EvNotification (mkDetail "a" "order_completed" "SELL" None)] in
  timers w = [(1000%Z, "b"); (1300%Z, "a")]
  /\ timers (advance 1000 w) = [].
Proof.
  intros w. split; [reflexivity|].
  apply (proj2 (timers_within_a_second (Some "u1") "authenticated"
    [EvNotification (mkDetail "b" "order_completed" "SELL" None);
     EvAdvance 300;
     EvNotification (mkDetail "a" "order_completed" "SELL" None)])).
  lia.
Defined.

(** ** The other notifications *)

Lemma ready_update d w :
  notificationType d = "order_ready" ->
  handleOrderStatusUpdate d w
  = onHook (updateOrder (orderId d) (statusOnly "READY_TO_TRADE")) w.
Proof. intros K. unfold handleOrderStatusUpdate. now rewrite K. Qed.

Lemma cancelled_update d w :
  notificationType d = "order_cancelled" ->
  handleOrderStatusUpdate d w
  = onHook (updateOrder (orderId d) (statusAndClaimer "OPEN" ClaimerNull)) w.
Proof. intros K. unfold handleOrderStatusUpdate. now rewrite K. Qed.

(** An [order_ready] notification gives the entries with its order id the
    status READY_TO_TRADE and keeps their claimer; an [order_cancelled]
    notification gives them the status OPEN and the claimer [null].  Every
    entry stays at its position, entries with another id as they are. *)
Theorem ready_and_cancelled_notifications (w : World) (d : Detail) (n : nat)
    (o : Order) :
  nth_error (orders (hook w)) n = Some o ->
  (notificationType d = "order_ready" ->
   nth_error (orders (hook (handleOrderStatusUpdate d w))) n
   = Some (if String.eqb (id o) (orderId d)
           then with_status "READY_TO_TRADE" o else o))
  /\ (notificationType d = "order_cancelled" ->
      nth_error (orders (hook (handleOrderStatusUpdate d w))) n
      = Some (if String.eqb (id o) (orderId d)
              then with_status_claimer "OPEN" ClaimerNull o else o)).
Proof.
  intros Hn. split; intros K;
    [rewrite (ready_update d w K)|rewrite (cancelled_update d w K)];
    cbn [onHook hook]; rewrite (nth_error_updateOrder _ _ _ n o Hn);
    unfold merge_at; now destruct (String.eqb (id o) (orderId d)).
Qed.

Lemma ready_and_cancelled_notifications_witness :
  nth_error
    (orders (hook (handleOrderStatusUpdate
                     (mkDetail "a" "order_cancelled" "SELL" None)
                     claimedWorld))) 0
  = Some (with_status_claimer "OPEN" ClaimerNull (sampleOrder "a")).
Proof.
  exact (proj2 (ready_and_cancelled_notifications claimedWorld
                  (mkDetail "a" "order_cancelled" "SELL" None) 0
                  (with_status_claimer "IN_PROGRESS"
                     (ClaimerObject (mkUserRef "u2" "bob" None))
                     (sampleOrder "a"))
                  eq_refl) eq_refl).
Defined.

Lemma merge_at_frame oid u o :
  p_id u = None -> p_itemName u = None -> p_tier u = None ->
  p_pricePerUnit u = None -> p_amount u = None -> p_orderType u = None ->
  p_createdAt u = None -> p_fulfilledAt u = None -> p_creator u = None ->
  let o' := merge_at oid u o in
  id o' = id o /\ itemName o' = itemName o /\ tier o' = tier o
  /\ pricePerUnit o' = pricePerUnit o /\ amount o' = amount o
  /\ orderType o' = orderType o /\ createdAt o' = createdAt o
  /\ fulfilledAt o' = fulfilledAt o /\ creator o' = creator o.
Proof.
  intros H1 H2 H3 H4 H5 H6 H7 H8 H9 o'. subst o'. unfold merge_at.
  destruct (String.eqb (id o) oid); [|now repeat split].
  cbn [spread id itemName tier pricePerUnit amount orderType createdAt
       fulfilledAt creator].
  rewrite H1, H2, H3, H4, H5, H6, H7, H8, H9. now repeat split.
Qed.

(** The patch a notification merges, if it merges one. *)
Lemma handleOrderStatusUpdate_orders d w :
  orders (hook (handleOrderStatusUpdate d w)) = orders (hook w)
  \/ exists s c,
       orders (hook (handleOrderStatusUpdate d w))
       = map (merge_at (orderId d)
                (mkPartial None None None None None None (Some s) None None
                           None c))
             (orders (hook w)).
Proof.
  unfold handleOrderStatusUpdate.
  change (applyStatusUpdate (orderId d) emptyPartial w) with w.
  split_ifs; try (left; reflexivity); right; eexists; eexists; reflexivity.
Qed.

(** Notifications touch nothing but status and claimer.  Whatever the
    notification, the list keeps its length and every entry keeps its
    position, id, item, tier, price, amount, order type, dates and creator;
    the paging cells, the user, both flags, the requests made and the calls
    in flight are untouched, also while a fetch is in flight; and when no
    entry has the notification's order id, the list is as it was. *)
Theorem notifications_only_touch_status (w : World) (d : Detail) :
  let w' := handleOrderStatusUpdate d w in
  List.length (orders (hook w')) = List.length (orders (hook w))
  /\ (forall n o,
        nth_error (orders (hook w)) n = Some o ->
        exists o',
          nth_error (orders (hook w')) n = Some o'
          /\ id o' = id o /\ itemName o' = itemName o /\ tier o' = tier o
          /\ pricePerUnit o' = pricePerUnit o /\ amount o' = amount o
          /\ orderType o' = orderType o /\ createdAt o' = createdAt o
          /\ fulfilledAt o' = fulfilledAt o /\ creator o' = creator o
          /\ (id o <> orderId d -> o' = o))
  /\ (page (hook w') = page (hook w) /\ hasMore (hook w') = hasMore (hook w)
      /\ totalCount (hook w') = totalCount (hook w)
      /\ currentUser (hook w') = currentUser (hook w)
      /\ loading (hook w') = loading (hook w)
      /\ isLoadingRef (hook w') = isLoadingRef (hook w)
      /\ hasInitializedRef (hook w') = hasInitializedRef (hook w))
  /\ (requests w' = requests w /\ inflight w' = inflight w
      /\ console w' = console w)
  /\ ((forall o, In o (orders (hook w)) -> id o <> orderId d) ->
      orders (hook w') = orders (hook w)).
Proof.
  intros w'. subst w'.
  pose proof (handleOrderStatusUpdate_orders d w) as Ho.
  split; [|split; [|split; [|split]]].
  - destruct Ho as [->|(s & c & ->)]; [reflexivity|apply length_map].
  - intros n o Hn. destruct Ho as [->|(s & c & ->)].
    + exists o. now repeat split.
    + rewrite nth_error_map, Hn. cbn [option_map]. eexists.
      split; [reflexivity|].
      pose proof (merge_at_frame (orderId d)
                    (mkPartial None None None None None None (Some s) None
                               None None c) o
                    eq_refl eq_refl eq_refl eq_refl eq_refl eq_refl eq_refl
                    eq_refl eq_refl) as F.
      cbv zeta in F. repeat split; try apply F.
      intros Hne. now apply merge_at_other.
  - unfold handleOrderStatusUpdate, applyStatusUpdate.
    split_ifs; repeat split.
  - destruct (handleOrderStatusUpdate_frame d w) as (_ & _ & F3 & F4 & F5 & _).
    now repeat split.
  - intros Hno. destruct Ho as [->|(s & c & ->)]; [reflexivity|].
    rewrite <- (map_id (orders (hook w))) at 2.
    apply map_ext_in. intros o Hin. apply merge_at_other. now apply Hno.
Qed.

Lemma notifications_only_touch_status_witness :
  (forall o, In o (orders (hook claimedWorld)) -> id o <> "z")
  /\ orders (hook (handleOrderStatusUpdate
                     (mkDetail "z" "order_completed" "SELL" None) claimedWorld))
     = orders (hook claimedWorld).
Proof.
  assert (Hno : forall o, In o (orders (hook claimedWorld)) -> id o <> "z").
  { intros o [<-|[<-|[]]]; discriminate. }
  split; [exact Hno|].
  pose proof (notifications_only_touch_status claimedWorld
                (mkDetail "z" "order_completed" "SELL" None)) as H.
  cbv zeta in H. destruct H as [_ [_ [_ [_ H]]]]. exact (H Hno).
Defined.

End OrderCacheMore.

(** * Further properties of the edit form *)
Module EditOrderModalMore.
Import EditOrderModal.

Section Interaction.

Variable numberToString : number -> string.
Variable parseFloat : string -> number.
Variable parseInt : string -> number.

Local Abbreviation autofill := (autofillEffect numberToString).
Local Abbreviation run := (mrun numberToString parseFloat parseInt).
Local Abbreviation step := (mstep numberToString parseFloat parseInt).

(** ** The effect settles *)

(** The autofill effect writes the price and the recorded key and nothing
    else, and running it again with the same order and price changes
    nothing more: the effect cannot feed itself. *)
Theorem autofill_settles (order : option OrderCache.Order)
    (currentPrice : option number) (st : ModalState) :
  let st' := autofill order currentPrice st in
  autofill order currentPrice st' = st'
  /\ tier (formData st') = tier (formData st)
  /\ amount (formData st') = amount (formData st)
  /\ orderType (formData st') = orderType (formData st)
  /\ userEditedPrice st' = userEditedPrice st
  /\ tierChanged st' = tierChanged st
  /\ formInitialized st' = formInitialized st.
Proof.
  intros st'. subst st'. unfold autofillEffect, autofillEffectOf.
  destruct order as [o|]; [|now repeat split].
  destruct (formInitialized st) eqn:I; cbn [negb]; [|rewrite I; now repeat split].
  destruct (String.eqb (lastPriceUpdateRef st)
              (priceKey numberToString o (formData st) currentPrice)) eqn:K.
  - rewrite I, K. now repeat split.
  - destruct currentPrice as [p|]; [|rewrite I, K; now repeat split].
    destruct (negb (userEditedPrice st) && tierChanged st) eqn:C.
    + cbn [formInitialized lastPriceUpdateRef formData negb].
      unfold priceKey at 1. cbn [tier]. fold (priceKey numberToString o
        (formData st) (Some p)).
      rewrite String.eqb_refl. now repeat split.
    + rewrite I, K, C. now repeat split.
Qed.

(** ** When the effect is disarmed *)

Lemma autofill_uninitialised order cp st :
  formInitialized st = false -> autofill order cp st = st.
Proof.
  intros I. unfold autofillEffect, autofillEffectOf. destruct order; [|reflexivity].
  now rewrite I.
Qed.

Lemma autofill_disarmed order cp st :
  tierChanged st = false \/ userEditedPrice st = true ->
  autofill order cp st = st.
Proof.
  intros D. unfold autofillEffect, autofillEffectOf. destruct order as [o|]; [|reflexivity].
  destruct (negb (formInitialized st)); [reflexivity|].
  destruct (String.eqb _ _); [reflexivity|].
  destruct cp as [p|]; [|reflexivity].
  destruct D as [D|D]; rewrite D; cbn [negb andb];
    [now rewrite andb_false_r|reflexivity].
Qed.

Lemma step_formInitialized st e :
  formInitialized (step st e) = formInitialized st.
Proof.
  destruct e; try reflexivity. cbn [mstep]. unfold autofillEffect, autofillEffectOf.
  destruct order as [o|]; [|reflexivity].
  destruct (negb (formInitialized st)); [reflexivity|].
  destruct (String.eqb _ _); [reflexivity|].
  destruct currentPrice as [p|]; [|reflexivity].
  now destruct (negb (userEditedPrice st) && tierChanged st).
Qed.

(** A form that is not initialised never autofills, whatever the user does:
    after the dialog has closed, and until an order is loaded again, every
    run of the form is the run without its autofill events, and the price
    changes only where the user types one. *)
Theorem closed_form_never_autofills (isOpen : bool) (st : ModalState)
    (evs : list ModalEvent) :
  isOpen = false ->
  let st0 := closeEffect isOpen st in
  formData st0 = formData st
  /\ run st0 evs = run st0 (without_autofill evs)
  /\ formInitialized (run st0 evs) = false.
Proof.
  intros -> st0. split; [reflexivity|].
  assert (I0 : formInitialized st0 = false) by reflexivity.
  clearbody st0. revert st0 I0.
  induction evs as [|e evs IH]; intros st0 I0; [now split|].
  unfold mrun, without_autofill in *. cbn [fold_left filter].
  destruct e; cbn [is_autofill negb fold_left];
    try (apply IH; now rewrite step_formInitialized).
  cbn [mstep]. rewrite (autofill_uninitialised order currentPrice st0 I0).
  now apply IH.
Qed.

Lemma step_keeps_disarmed st e :
  is_tier e = false ->
  tierChanged st = false \/ userEditedPrice st = true ->
  tierChanged (step st e) = false \/ userEditedPrice (step st e) = true.
Proof.
  intros T D. destruct e; try discriminate T; cbn [mstep]; try exact D.
  - now right.
  - now rewrite (autofill_disarmed order currentPrice st D).
Qed.

Lemma run_disarmed (st : ModalState) (evs : list ModalEvent) :
  tierChanged st = false \/ userEditedPrice st = true ->
  no_tier evs = true ->
  run st evs = run st (without_autofill evs)
  /\ (tierChanged (run st evs) = false \/ userEditedPrice (run st evs) = true).
Proof.
  revert st. induction evs as [|e evs IH]; intros st D Hev; [now split|].
  unfold no_tier in Hev. cbn [forallb] in Hev.
  apply andb_prop in Hev. destruct Hev as [He Hrest].
  apply negb_true_iff in He.
  pose proof (step_keeps_disarmed st e He D) as D'.
  unfold mrun, without_autofill in *. cbn [fold_left filter].
  destruct e; cbn [is_autofill negb fold_left]; try (now apply IH).
  cbn [mstep] in *. rewrite (autofill_disarmed order currentPrice st D).
  now apply IH.
Qed.

(** ** Loading an order *)

Lemma loadCommit_plain o stalePrice price prev :
  formInitialized prev = false \/ tierChanged prev = false
  \/ userEditedPrice prev = true \/ stalePrice = None ->
  loadCommit numberToString o stalePrice price prev
  = resetFormEffect (Some o) prev.
Proof.
  intros D. unfold loadCommit.
  assert (E1 : autofillEffectOf numberToString (Some o) stalePrice prev
                 (resetFormEffect (Some o) prev)
               = resetFormEffect (Some o) prev).
  { unfold autofillEffectOf.
    destruct (negb (formInitialized prev)) eqn:I; [reflexivity|].
    destruct (String.eqb _ _); [reflexivity|].
    destruct stalePrice as [p|]; [|reflexivity].
    destruct D as [D|[D|[D|D]]].
    - rewrite D in I. discriminate I.
    - rewrite D. now rewrite andb_false_r.
    - now rewrite D.
    - discriminate D. }
  rewrite E1. apply autofill_disarmed. now left.
Qed.

Lemma loadCommit_armed o p price prev :
  formInitialized prev = true -> tierChanged prev = true ->
  userEditedPrice prev = false ->
  loadCommit numberToString o (Some p) price prev
  = loaded_with o p (priceKey numberToString o (formData prev) (Some p)).
Proof.
  intros I T U. unfold loadCommit.
  assert (E1 : autofillEffectOf numberToString (Some o) (Some p) prev
                 (resetFormEffect (Some o) prev)
               = loaded_with o p
                   (priceKey numberToString o (formData prev) (Some p))).
  { unfold autofillEffectOf. rewrite I, T, U.
    cbn [negb andb resetFormEffect lastPriceUpdateRef].
    now rewrite EditOrderModalProps.priceKey_not_empty. }
  rewrite E1. apply autofill_disarmed. now left.
Qed.

Lemma loadCommit_frame o stalePrice price prev :
  let st' := loadCommit numberToString o stalePrice price prev in
  tier (formData st') = OrderCache.tier o
  /\ amount (formData st') = OrderCache.amount o
  /\ orderType (formData st') = OrderCache.orderType o
  /\ userEditedPrice st' = false /\ tierChanged st' = false
  /\ formInitialized st' = true.
Proof.
  intros st'. subst st'.
  destruct (formInitialized prev) eqn:I;
    [|rewrite loadCommit_plain by tauto; now repeat split].
  destruct (tierChanged prev) eqn:T;
    [|rewrite loadCommit_plain by tauto; now repeat split].
  destruct (userEditedPrice prev) eqn:U;
    [rewrite loadCommit_plain by tauto; now repeat split|].
  destruct stalePrice as [p|];
    [|rewrite loadCommit_plain by tauto; now repeat split].
  rewrite (loadCommit_armed o p price prev I T U). now repeat split.
Qed.

(** The commit in which the order changes, as the code runs it.  It always
    leaves a draft with the new order's tier, amount and order type and
    with the flags reset.  When the draft before was not armed (the form
    not initialised, the tier not changed, the price typed) or the table
    has no price, the draft is the one the reset effect made, with the
    order's own price.  When the draft before was armed, the autofill
    effect of that commit still sees the flags of the render before the
    reset, and writes the price of the table over the order's price. *)
Theorem load_commit_outcome (o : OrderCache.Order)
    (stalePrice price : option number) (prev : ModalState) :
  let st' := loadCommit numberToString o stalePrice price prev in
  (tier (formData st') = OrderCache.tier o
   /\ amount (formData st') = OrderCache.amount o
   /\ orderType (formData st') = OrderCache.orderType o
   /\ userEditedPrice st' = false /\ tierChanged st' = false
   /\ formInitialized st' = true)
  /\ (formInitialized prev = false \/ tierChanged prev = false
      \/ userEditedPrice prev = true \/ stalePrice = None ->
      st' = resetFormEffect (Some o) prev
      /\ pricePerUnit (formData st') = OrderCache.pricePerUnit o)
  /\ (forall p,
        formInitialized prev = true -> tierChanged prev = true ->
        userEditedPrice prev = false -> stalePrice = Some p ->
        pricePerUnit (formData st') = p
        /\ lastPriceUpdateRef st'
           = priceKey numberToString o (formData prev) (Some p)).
Proof.
  intros st'. subst st'. split; [|split].
  - apply loadCommit_frame.
  - intros D. rewrite (loadCommit_plain o stalePrice price prev D).
    now split.
  - intros p I T U ->. rewrite (loadCommit_armed o p price prev I T U).
    now split.
Qed.

(** Without a change of tier the effect stays disarmed.  After an order has
    been loaded (the whole commit, whatever the draft before), and after
    the user has typed a price, every run in which no tier is picked is the
    run without its autofill events: whatever the pricing table gives, the
    price is the one the load left or the last one typed. *)
Theorem no_autofill_without_tier_change (o : OrderCache.Order)
    (stalePrice price : option number) (prev : ModalState) (value : string)
    (evs : list ModalEvent) :
  no_tier evs = true ->
  (let st := loadCommit numberToString o stalePrice price prev in
   run st evs = run st (without_autofill evs))
  /\ (let st := handlePriceChange parseFloat value prev in
      run st evs = run st (without_autofill evs)).
Proof.
  intros Hev. split; intros st; apply run_disarmed; try exact Hev.
  - left. subst st. apply (loadCommit_frame o stalePrice price prev).
  - now right.
Qed.

(** ** What the user types *)

(** A typed price is never [NaN]; text that does not parse, and a typed
    zero, give the price 0, which [handleSubmit] then rejects.  The typed
    price is kept by the autofill effect whatever it runs with. *)
Theorem typed_price (value : string) (st : ModalState)
    (order : option OrderCache.Order) (currentPrice : option number) :
  let st' := handlePriceChange parseFloat value st in
  pricePerUnit (formData st') <> NaN
  /\ (falsy (parseFloat value) = true ->
      pricePerUnit (formData st') = ofZ 0
      /\ exists m, handleSubmit st' = Alert m)
  /\ (falsy (parseFloat value) = false ->
      pricePerUnit (formData st') = parseFloat value)
  /\ autofill order currentPrice st' = st'
  /\ tier (formData st') = tier (formData st)
  /\ amount (formData st') = amount (formData st)
  /\ orderType (formData st') = orderType (formData st).
Proof.
  intros st'. subst st'.
  split; [|split; [|split; [|split; [|now repeat split]]]].
  - cbn [handlePriceChange formData pricePerUnit]. unfold orZero.
    destruct (parseFloat value) as [q| | |]; try discriminate.
    destruct (Qeq_bool q 0); discriminate.
  - intros H.
    assert (E : pricePerUnit (formData (handlePriceChange parseFloat value st))
                = ofZ 0).
    { cbn [handlePriceChange formData pricePerUnit]. unfold orZero.
      destruct (parseFloat value) as [q| | |]; try discriminate H;
        [|reflexivity].
      cbn [falsy] in H. now rewrite H. }
    split; [exact E|]. unfold handleSubmit. rewrite E.
    destruct (lt _ _ || gt _ _); eexists; reflexivity.
  - intros H. cbn [handlePriceChange formData pricePerUnit]. unfold orZero.
    destruct (parseFloat value) as [q| | |]; try discriminate H;
      try reflexivity.
    cbn [falsy] in H. now rewrite H.
  - apply autofill_disarmed. now right.
Qed.

(** A typed amount is never [NaN] and never zero: text that does not parse,
    and a typed zero, give the amount 1, which passes the amount check.
    Typing an amount or picking an order type touches no other field and
    neither arms nor disarms the autofill effect: the effect and these
    inputs can be applied in either order. *)
Theorem typed_amount (value : string) (st : ModalState)
    (order : option OrderCache.Order) (currentPrice : option number) :
  let st' := handleAmountChange parseInt value st in
  falsy (amount (formData st')) = false
  /\ (falsy (parseInt value) = true ->
      amount (formData st') = ofZ 1 /\ le (amount (formData st')) (ofZ 0) = false)
  /\ (falsy (parseInt value) = false -> amount (formData st') = parseInt value)
  /\ autofill order currentPrice st'
     = handleAmountChange parseInt value (autofill order currentPrice st)
  /\ autofill order currentPrice (handleOrderTypeChange value st)
     = handleOrderTypeChange value (autofill order currentPrice st).
Proof.
  intros st'. subst st'. split; [|split; [|split; [|split]]].
  - cbn [handleAmountChange formData amount]. unfold orOne.
    destruct (parseInt value) as [q| | |]; try reflexivity.
    destruct (Qeq_bool q 0) eqn:Z; [reflexivity|exact Z].
  - intros H. cbn [handleAmountChange formData amount]. unfold orOne.
    destruct (parseInt value) as [q| | |]; try discriminate H;
      [|now split].
    cbn [falsy] in H. rewrite H. now split.
  - intros H. cbn [handleAmountChange formData amount]. unfold orOne.
    destruct (parseInt value) as [q| | |]; try discriminate H;
      try reflexivity.
    cbn [falsy] in H. now rewrite H.
  - unfold autofillEffect, autofillEffectOf. destruct order as [o|]; [|reflexivity].
    cbn [handleAmountChange formInitialized lastPriceUpdateRef formData
         userEditedPrice tierChanged].
    destruct (negb (formInitialized st)); [reflexivity|].
    unfold priceKey. cbn [tier].
    destruct (String.eqb _ _); [reflexivity|].
    destruct currentPrice as [p|]; [|reflexivity].
    destruct (negb (userEditedPrice st) && tierChanged st); reflexivity.
  - unfold autofillEffect, autofillEffectOf. destruct order as [o|]; [|reflexivity].
    cbn [handleOrderTypeChange formInitialized lastPriceUpdateRef formData
         userEditedPrice tierChanged].
    destruct (negb (formInitialized st)); [reflexivity|].
    unfold priceKey. cbn [tier].
    destruct (String.eqb _ _); [reflexivity|].
    destruct currentPrice as [p|]; [|reflexivity].
    destruct (negb (userEditedPrice st) && tierChanged st); reflexivity.
Qed.

End Interaction.

Lemma closed_form_never_autofills_witness :
  mrun showNumber readNumber readNumber (closeEffect false armed_draft)
       [MTier (ofZ 6);
        MAutofill (Some (OrderCache.sampleOrder "a")) (Some (ofZ 20))]
  = mrun showNumber readNumber readNumber (closeEffect false armed_draft)
         [MTier (ofZ 6)].
Proof.
  exact (proj1 (proj2 (closed_form_never_autofills showNumber readNumber
    readNumber false armed_draft
    [MTier (ofZ 6);
     MAutofill (Some (OrderCache.sampleOrder "a")) (Some (ofZ 20))]
    eq_refl))).
Defined.

Lemma load_commit_outcome_witness :
  formInitialized armed_draft = true
  /\ tierChanged armed_draft = true
  /\ userEditedPrice armed_draft = false
  /\ OrderCache.pricePerUnit OrderCache.stoneOrder = Fin (5 # 2)
  /\ pricePerUnit
       (formData (loadCommit showNumber OrderCache.stoneOrder (Some (ofZ 33))
                             (Some (ofZ 8)) armed_draft))
     = ofZ 33.
Proof.
  do 4 (split; [reflexivity|]).
  pose proof (load_commit_outcome showNumber OrderCache.stoneOrder
                (Some (ofZ 33)) (Some (ofZ 8)) armed_draft) as H.
  cbv zeta in H. destruct H as [_ [_ H]].
  exact (proj1 (H (ofZ 33) eq_refl eq_refl eq_refl eq_refl)).
Defined.

Lemma no_autofill_without_tier_change_witness :
  let st := loadCommit showNumber OrderCache.stoneOrder (Some (ofZ 33))
                       (Some (ofZ 8)) armed_draft in
  let evs := [MAutofill (Some OrderCache.stoneOrder) (Some (ofZ 20));
              MAmount "";
              MAutofill (Some OrderCache.stoneOrder) (Some (ofZ 4))] in
  mrun showNumber readNumber readNumber st evs
  = mrun showNumber readNumber readNumber st [MAmount ""].
Proof.
  intros st evs.
  exact (proj1 (no_autofill_without_tier_change showNumber readNumber
                  readNumber OrderCache.stoneOrder (Some (ofZ 33))
                  (Some (ofZ 8)) armed_draft "" evs eq_refl)).
Defined.

Lemma typed_price_witness :
  falsy (readNumber "") = true
  /\ exists m,
       handleSubmit (handlePriceChange readNumber "" armed_draft) = Alert m.
Proof.
  split; [reflexivity|].
  pose proof (typed_price showNumber readNumber "" armed_draft None None) as H.
  cbv zeta in H. destruct H as [_ [H _]].
  exact (proj2 (H eq_refl)).
Defined.

Lemma typed_amount_witness :
  falsy (readNumber "0") = true
  /\ amount (formData (handleAmountChange readNumber "0" armed_draft)) = ofZ 1.
Proof.
  split; [reflexivity|].
  pose proof (typed_amount showNumber readNumber "0" armed_draft None None)
    as H.
  cbv zeta in H. destruct H as [_ [H _]].
  exact (proj1 (H eq_refl)).
Defined.

End EditOrderModalMore.

(** * Properties of the sign-in page *)
Module HomePageProps.
Import HomePage.

Lemma hstep_budget st e : redirect_budget st -> redirect_budget (hstep st e).
Proof.
  intros B. destruct e; cbn [hstep].
  - unfold timerFires. destruct (timer st) as [b|] eqn:T; [|exact B].
    unfold redirect_budget, fresh_checks in *.
    cbn [isRedirecting routerPushes timer sessionChecks]. rewrite T in B.
    rewrite map_app, list_sum_app. cbn [map].
    change (list_sum [fresh b]) with (fresh b + 0).
    destruct B as [(R & P & F)|(R & P & F)]; [left|right];
      (split; [exact R|split; [exact P|lia]]).
  - unfold sessionSettles. destruct (sessionChecks st) as [|b rest] eqn:C;
      [exact B|].
    assert (B1 : redirect_budget
                   (mkHome (isRedirecting st) (isSigningIn st) (timer st) rest
                           (routerPushes st) (signIns st))
                 /\ (b = false -> isRedirecting st = false
                                  /\ fresh_checks
                                       (mkHome (isRedirecting st)
                                          (isSigningIn st) (timer st) rest
                                          (routerPushes st) (signIns st)) = 0
                                  /\ routerPushes st = [])).
    { unfold redirect_budget, fresh_checks in *.
      cbn [isRedirecting routerPushes timer sessionChecks]. rewrite C in B.
      cbn [map] in B.
      change (list_sum (fresh b :: map fresh rest))
        with (fresh b + list_sum (map fresh rest)) in B.
      destruct B as [(R & P & F)|(R & P & F)].
      - split; [left; split; [exact R|split; [exact P|lia]]|].
        intros ->. cbn [fresh] in F. split; [exact R|split; [lia|exact P]].
      - split; [right; split; [exact R|split; [exact P|lia]]|].
        intros ->. cbn [fresh] in F. lia. }
    destruct B1 as [B1 Hb].
    destruct r as [|[|]]; try exact B1.
    destruct b; cbn [negb]; [exact B1|].
    destruct (Hb eq_refl) as (R & F & P).
    unfold setIsRedirecting. cbn [isRedirecting]. rewrite R.
    right. unfold fresh_checks in *.
    cbn [routerPush runEffect isRedirecting routerPushes timer sessionChecks
         fresh] in *.
    rewrite P. split; [reflexivity|split; [reflexivity|]].
    destruct (timer st) as [[|]|]; cbn [fresh] in F; lia.
  - unfold click. destruct (isRedirecting st || isSigningIn st); exact B.
  - unfold signInSettles. destruct (signIns st); exact B.
Qed.

Lemma hrun_budget evs : redirect_budget (hrun evs).
Proof.
  unfold hrun.
  assert (B0 : redirect_budget mountHome) by (left; cbn; repeat split; lia).
  revert B0. generalize mountHome.
  induction evs as [|e evs IH]; intros st B; [exact B|].
  cbn [fold_left]. apply IH. now apply hstep_budget.
Qed.

Lemma hstep_no_session st e :
  session_found [e] = false ->
  isRedirecting (hstep st e) = isRedirecting st
  /\ routerPushes (hstep st e) = routerPushes st.
Proof.
  intros H. destruct e; cbn [hstep].
  - unfold timerFires. destruct (timer st); now split.
  - unfold sessionSettles. destruct (sessionChecks st); [now split|].
    destruct r as [|[|]]; [now split|discriminate H|now split].
  - unfold click. destruct (isRedirecting st || isSigningIn st); now split.
  - unfold signInSettles. destruct (signIns st); now split.
Qed.

(** The page redirects at most once, and only to the orders page: in every
    run the router is pushed once at most, to ["/orders"], and exactly when
    [isRedirecting] is set; and as long as no [getSession] has found a
    session (it returned [null] or threw), nothing is pushed and the
    sign-in form stays. *)
Theorem redirects_at_most_once (evs : list HomeEvent) :
  let st := hrun evs in
  (routerPushes st = [] \/ routerPushes st = ["/orders"])
  /\ (isRedirecting st = true <-> routerPushes st = ["/orders"])
  /\ (session_found evs = false ->
      isRedirecting st = false /\ routerPushes st = []).
Proof.
  intros st. pose proof (hrun_budget evs) as B. fold st in B.
  split; [|split].
  - destruct B as [(_ & P & _)|(_ & P & _)]; tauto.
  - destruct B as [(R & P & _)|(R & P & _)]; rewrite R, P;
      split; intros H; try reflexivity; discriminate H.
  - subst st. unfold hrun. clear B.
    assert (H0 : isRedirecting mountHome = false /\ routerPushes mountHome = [])
      by now split.
    revert H0. generalize mountHome.
    induction evs as [|e evs IH]; intros st H0 Hs; [exact H0|].
    cbn [fold_left]. unfold session_found in Hs. cbn [existsb] in Hs.
    apply orb_false_elim in Hs. destruct Hs as [He Hrest].
    apply IH; [|exact Hrest].
    destruct (hstep_no_session st e) as [R P].
    { unfold session_found; cbn [existsb]. now rewrite He. }
    now rewrite R, P.
Qed.

Lemma redirects_at_most_once_witness :
  let evs := [HTimer; HSession SessionThrows; HClick; HSignIn false; HTimer] in
  isRedirecting (hrun evs) = false /\ routerPushes (hrun evs) = [].
Proof.
  intros evs.
  exact (proj2 (proj2 (redirects_at_most_once evs)) eq_refl).
Defined.

Lemma hstep_sign_in st e :
  ((signIns st = [] \/ signIns st = [("discord", "/orders")])
   /\ (signIns st <> [] -> isSigningIn st = true)) ->
  (signIns (hstep st e) = [] \/ signIns (hstep st e) = [("discord", "/orders")])
  /\ (signIns (hstep st e) <> [] -> isSigningIn (hstep st e) = true).
Proof.
  intros [L S]. destruct e; cbn [hstep].
  - unfold timerFires. destruct (timer st); now split.
  - unfold sessionSettles. destruct (sessionChecks st); [now split|].
    destruct r as [|[|]]; try (now split).
    destruct b; cbn [negb]; [now split|].
    unfold setIsRedirecting. cbn [isRedirecting isSigningIn].
    destruct (isRedirecting st); now split.
  - unfold click. destruct (isRedirecting st) ; cbn [orb]; [now split|].
    destruct (isSigningIn st) eqn:G; [now split|].
    cbn [handleSignIn signIns isSigningIn].
    destruct L as [L|L]; rewrite L in *.
    + split; [now right|reflexivity].
    + assert (C : (false = true)) by (apply S; discriminate). discriminate C.
  - unfold signInSettles. destruct (signIns st) as [|c rest] eqn:E.
    { rewrite E. split; [now left|]. intros C. now contradiction C. }
    cbn [signIns isSigningIn].
    destruct L as [L|L]; [discriminate L|]. injection L as _ ->.
    split; [now left|]. intros C. now contradiction C.
Qed.

(** At most one sign-in is under way at a time, and always with Discord and
    the orders page as the way back; while one is under way the button is
    disabled.  A sign-in that fails enables the button again; one that
    succeeds leaves it disabled. *)
Theorem one_sign_in_at_a_time (evs : list HomeEvent) (ok : bool) :
  let st := hrun evs in
  (signIns st = [] \/ signIns st = [("discord", "/orders")])
  /\ (signIns st <> [] ->
      isSigningIn st = true
      /\ click st = st
      /\ signIns (signInSettles ok st) = []
      /\ isSigningIn (signInSettles ok st) = ok).
Proof.
  intros st.
  assert (H : (signIns st = [] \/ signIns st = [("discord", "/orders")])
              /\ (signIns st <> [] -> isSigningIn st = true)).
  { subst st. unfold hrun.
    assert (H0 : (signIns mountHome = []
                  \/ signIns mountHome = [("discord", "/orders")])
                 /\ (signIns mountHome <> [] -> isSigningIn mountHome = true)).
    { split; [now left|]. intros C. now contradiction C. }
    revert H0. generalize mountHome.
    induction evs as [|e evs IH]; intros st H0; [exact H0|].
    cbn [fold_left]. apply IH. now apply hstep_sign_in. }
  destruct H as [L S]. split; [exact L|].
  intros Hne. pose proof (S Hne) as G.
  destruct L as [L|L]; [contradiction|].
  repeat split.
  - exact G.
  - unfold click. rewrite G. now rewrite orb_true_r.
  - unfold signInSettles. now rewrite L.
  - unfold signInSettles. rewrite L. cbn [isSigningIn]. rewrite G.
    now destruct ok.
Qed.

Lemma one_sign_in_at_a_time_witness :
  let st := hrun [HClick; HClick; HTimer] in
  signIns st <> [] /\ click st = st
  /\ isSigningIn (signInSettles false st) = false.
Proof.
  intros st.
  assert (Hne : signIns st <> []) by discriminate.
  destruct (proj2 (one_sign_in_at_a_time [HClick; HClick; HTimer] false) Hne)
    as (_ & C & _ & G).
  split; [exact Hne|]. split; [exact C|exact G].
Defined.

End HomePageProps.
